(** * A command-line calculator with bounded history, undo/redo and CSV persistence

    Shallow embedding of the Python package [app]:
    - [app/operations.py]          the ten operations and [OperationFactory]
    - [app/calculation.py]         [Calculation]
    - [app/input_validators.py]    [validate_number], [validate_in_range]
    - [app/history.py]             [CalculationHistory]
    - [app/calculator_memento.py]  [CalculatorMemento], [CalculatorCaretaker]
    - [app/calculator.py]          the observers and [Calculator]

    Python objects are modelled as values: a list that the program copies
    ([list.copy], [deepcopy]) is a Rocq list, a method that mutates [self]
    is a function returning the new object, a method that may raise returns
    an [outcome] together with the state it leaves behind. *)

From Stdlib Require Import ZArith String Ascii List Bool Lia.
From Stdlib Require Import Floats.SpecFloat.
From stdpp Require Import base option list strings pretty gmap.

Local Open Scope string_scope.
Local Open Scope list_scope.
Local Open Scope Z_scope.

(** ** Python floats

    A Python [float] is an IEEE 754 binary64 number.  [spec_float] gives the
    sign, the mantissa and the exponent; the arithmetic of [SpecFloat] is
    instantiated at precision 53 and maximal exponent 1024. *)

Module PyFloat.

Definition float : Type := spec_float.

Definition prec : Z := 53.
Definition emax : Z := 1024.

Definition add : float -> float -> float := SFadd prec emax.
Definition sub : float -> float -> float := SFsub prec emax.
Definition mul : float -> float -> float := SFmul prec emax.
Definition div : float -> float -> float := SFdiv prec emax.
Definition opp : float -> float := SFopp.
Definition fabs : float -> float := SFabs.
Definition eqb : float -> float -> bool := SFeqb.
Definition ltb : float -> float -> bool := SFltb.
Definition leb : float -> float -> bool := SFleb.
Definition gtb (x y : float) : bool := SFltb y x.

Definition nan : float := S754_nan.
Definition inf : float := S754_infinity false.
Definition zero : float := S754_zero false.

(** The float nearest to an integer (ties to even); it is the integer
    itself up to 2^53. *)
Definition of_Z (z : Z) : float := binary_normalize prec emax z 0 false.

(** The float nearest to the quotient [p / q] of two positive integers,
    with the sign [s]; this is the rounding that [SFdiv] performs, taken
    at integers of any size. *)
Definition of_ratio (s : bool) (p q : positive) : float :=
  let '(m, e, l) := SFdiv_core_binary prec emax (Zpos p) 0 (Zpos q) 0 in
  binary_round_aux prec emax s m e l.

Definition one : float := of_Z 1.
Definition two : float := of_Z 2.
Definition half : float := div one two.
Definition hundred : float := of_Z 100.

Definition is_nan (x : float) : bool :=
  match x with S754_nan => true | _ => false end.

Definition is_infinity (x : float) : bool :=
  match x with S754_infinity _ => true | _ => false end.

Definition is_finite (x : float) : bool :=
  match x with S754_zero _ | S754_finite _ _ _ => true | _ => false end.

Definition signbit (x : float) : bool :=
  match x with
  | S754_zero s | S754_infinity s | S754_finite s _ _ => s
  | S754_nan => false
  end.

(** C [copysign(x, y)]. *)
Definition copysign (x y : float) : float :=
  match x with
  | S754_zero _ => S754_zero (signbit y)
  | S754_infinity _ => S754_infinity (signbit y)
  | S754_finite _ m e => S754_finite (signbit y) m e
  | S754_nan => S754_nan
  end.

(** C [floor]: exact, the mantissa of a binary64 integer part fits. *)
Definition floor (x : float) : float :=
  match x with
  | S754_finite s m e =>
      if 0 <=? e then x
      else
        let q := Z.shiftr (Zpos m) (- e) in
        let exact := Z.shiftl q (- e) =? Zpos m in
        if s then binary_normalize prec emax (- (if exact then q else q + 1)) 0 true
        else binary_normalize prec emax q 0 false
  | _ => x
  end.

(** C [fmod]: the remainder of the truncated quotient, computed exactly;
    it has the sign of [x]. *)
Definition fmod (x y : float) : float :=
  match x, y with
  | S754_nan, _ | _, S754_nan => nan
  | S754_infinity _, _ => nan
  | _, S754_zero _ => nan
  | S754_zero _, _ => x
  | S754_finite _ _ _, S754_infinity _ => x
  | S754_finite sx mx ex, S754_finite _ my ey =>
      let e := Z.min ex ey in
      let X := Z.shiftl (Zpos mx) (ex - e) in
      let Y := Z.shiftl (Zpos my) (ey - e) in
      let R := X mod Y in
      binary_normalize prec emax (if sx then - R else R) e sx
  end.

(** CPython's [DOUBLE_IS_ODD_INTEGER]. *)
Definition is_odd_integer (x : float) : bool := eqb (fmod (fabs x) two) one.

(** C truth value of a double: everything but a zero (a NaN is true). *)
Definition nonzero (x : float) : bool := negb (eqb x zero).

End PyFloat.

Import PyFloat.

(** ** Exceptions and results *)

(** The built-in exceptions that the program meets. *)
Inductive builtin_exn :=
| ZeroDivisionError | OverflowError | ValueError | TypeError.

(** [app/exceptions.py]: the subclasses of [CalculatorError] that the
    modelled code raises, with their message, and the built-in exceptions
    that cross it. *)
Inductive exn :=
| OperationError (msg : string)
| ValidationError (msg : string)
| HistoryError (msg : string)
| Builtin (e : builtin_exn).

(** The outcome of a call: a returned value or a raised exception. *)
Inductive outcome (A : Type) :=
| Return (a : A)
| Raise (e : exn).
Arguments Return {A} a.
Arguments Raise {A} e.

(** [outcome] is a monad; stdpp's notation [x ← r; k] sequences two calls and
    stops at the first exception. *)
#[global] Instance outcome_ret : MRet outcome := fun A a => Return a.
#[global] Instance outcome_bind : MBind outcome := fun A B k r =>
  match r with
  | Return a => k a
  | Raise e => Raise e
  end.

Definition raises {A} (r : outcome A) : bool :=
  match r with Raise _ => true | Return _ => false end.

(** ** The services of the interpreter that are taken as given

    The decimal reading and printing of floats and the C library's [pow]
    are not modelled: the development holds for every implementation of
    them. *)

Inductive errno := ENONE | ERANGE | EDOM.

Class PyRuntime := {
  (** [float(s)] for a [str]; [None] when it raises [ValueError] *)
  float_of_str : string -> option float;
  (** [str(x)] for a [float] *)
  str_of_float : float -> string;
  (** C [pow(x, y)] and the [errno] it leaves *)
  libm_pow : float -> float -> float * errno;
  (** the real and imaginary parts of [x ** y] for [x < 0] and [y] not an
      integer; [None] when the complex power raises [OverflowError] *)
  complex_pow : float -> float -> option (float * float);
  (** [str(z)] for the [complex] with these real and imaginary parts *)
  str_of_complex : float -> float -> string;
  (** [str(e)] for a built-in exception that the interpreter raised; the
      interpreter words it by the operation that raised it, the model has
      one text for a class *)
  exn_text : builtin_exn -> string
}.

(** A Python number produced by an operation. *)
Inductive pynum :=
| Float (x : float)
| Complex (re im : float).

(** The objects that reach the calculator as operands. *)
Inductive pyobj :=
| ObjFloat (x : float)
| ObjInt (z : Z)
| ObjStr (s : string)
| ObjNone.

(** ** Built-in operations on floats and strings *)

Module Builtins.

(** [x % y] on floats ([float_rem]). *)
Definition float_rem (vx wx : float) : outcome float :=
  if eqb wx zero then Raise (Builtin ZeroDivisionError)
  else
    let m := fmod vx wx in
    Return (if nonzero m
            then if negb (Bool.eqb (ltb wx zero) (ltb m zero)) then add m wx else m
            else copysign zero wx).

(** [x // y] on floats ([float_floor_div], through [_float_div_mod]). *)
Definition float_floor_div (vx wx : float) : outcome float :=
  if eqb wx zero then Raise (Builtin ZeroDivisionError)
  else
    let m := fmod vx wx in
    let d := div (sub vx m) wx in
    let d := if nonzero m && negb (Bool.eqb (ltb wx zero) (ltb m zero))
             then sub d one else d in
    Return (if nonzero d
            then let fl := floor d in
                 if gtb (sub d fl) half then add fl one else fl
            else copysign zero (div vx wx)).

Section WithRuntime.
Context {rt : PyRuntime}.

(** [x ** y] on floats ([float_pow]): the special cases are settled
    before the C library is called. *)
Definition float_pow (iv iw : float) : outcome pynum :=
  if eqb iw zero then Return (Float one)
  else if is_nan iv then Return (Float iv)
  else if is_nan iw then Return (Float (if eqb iv one then one else iw))
  else if is_infinity iw then
    let av := fabs iv in
    if eqb av one then Return (Float one)
    else if Bool.eqb (gtb iw zero) (gtb av one) then Return (Float (fabs iw))
    else Return (Float zero)
  else if is_infinity iv then
    let iw_is_odd := is_odd_integer iw in
    if gtb iw zero then Return (Float (if iw_is_odd then iv else fabs iv))
    else Return (Float (if iw_is_odd then copysign zero iv else zero))
  else if eqb iv zero then
    if ltb iw zero then Raise (Builtin ZeroDivisionError)
    else Return (Float (if is_odd_integer iw then iv else zero))
  else if ltb iv zero && negb (eqb iw (floor iw)) then
    match complex_pow iv iw with
    | Some (re, im) => Return (Complex re im)
    | None => Raise (Builtin OverflowError)
    end
  else
    let negate_result := ltb iv zero && is_odd_integer iw in
    let iv := if ltb iv zero then opp iv else iv in
    if eqb iv one then Return (Float (if negate_result then opp one else one))
    else
      let '(ix, err) := libm_pow iv iw in
      let err := match err with
                 | ENONE => if is_infinity ix then ERANGE else ENONE
                 | ERANGE => if eqb ix zero then ENONE else ERANGE
                 | EDOM => EDOM
                 end in
      let ix := if negate_result then opp ix else ix in
      match err with
      | ENONE => Return (Float ix)
      | ERANGE => Raise (Builtin OverflowError)
      | EDOM => Raise (Builtin ValueError)
      end.

(** The operator [a ** b] on two floats. *)
Definition pow (a b : float) : outcome pynum := float_pow a b.

End WithRuntime.

(** [round(x, ndigits)] on a finite non-zero float ([double_round]): the
    exact value is rounded half-to-even to [ndigits] decimals, and the
    decimal is read back as the nearest float. *)
Definition double_round (s : bool) (m : positive) (e : Z) (ndigits : Z) : outcome float :=
  let P := Zpos m * (if 0 <=? e then 2 ^ e else 1)
                  * (if 0 <=? ndigits then 10 ^ ndigits else 1) in
  let Q := (if 0 <=? e then 1 else 2 ^ (- e))
           * (if 0 <=? ndigits then 1 else 10 ^ (- ndigits)) in
  let q := P / Q in
  let r := P mod Q in
  let k := match 2 * r ?= Q with
           | Lt => q
           | Gt => q + 1
           | Eq => if Z.even q then q else q + 1
           end in
  let rounded :=
    match k with
    | Zpos k' =>
        if 0 <=? ndigits then of_ratio s k' (Z.to_pos (10 ^ ndigits))
        else binary_normalize prec emax
               (if s then - (k * 10 ^ (- ndigits)) else k * 10 ^ (- ndigits)) 0 s
    | _ => S754_zero s
    end in
  if is_infinity rounded then Raise (Builtin OverflowError) else Return rounded.

(** [round(x, ndigits)] with an integer [ndigits]; a complex number has no
    [__round__]. *)
Definition round (x : pynum) (ndigits : Z) : outcome float :=
  match x with
  | Complex _ _ => Raise (Builtin TypeError)
  | Float x =>
      match x with
      | S754_finite s m e =>
          if 323 <? ndigits then Return x
          else if ndigits <? -308 then Return (mul zero x)
          else double_round s m e ndigits
      | _ => Return x
      end
  end.

(** [float(z)] for an [int]: the nearest float, [OverflowError] beyond the
    range. *)
Definition float_of_int (z : Z) : outcome float :=
  let x := of_Z z in
  if is_infinity x then Raise (Builtin OverflowError) else Return x.

(** [c.lower()] on an ASCII letter. *)
Definition lower_ascii (c : ascii) : ascii :=
  let n := nat_of_ascii c in
  if ((65 <=? n) && (n <=? 90))%nat then ascii_of_nat (n + 32) else c.

(** [s.lower()], on ASCII. *)
Fixpoint lower (s : string) : string :=
  match s with
  | EmptyString => EmptyString
  | String c s' => String (lower_ascii c) (lower s')
  end.

(** [s.replace(old, new)] for a non-empty [old]: the occurrences are
    replaced from the left, without overlap.  [skip] counts the characters
    of an occurrence that are still to be dropped. *)
Fixpoint replace_from (old new : string) (skip : nat) (s : string) : string :=
  match s with
  | EmptyString => EmptyString
  | String c s' =>
      match skip with
      | S k => replace_from old new k s'
      | O =>
          if String.prefix old s
          then new +:+ replace_from old new (Nat.pred (String.length old)) s'
          else String c (replace_from old new O s')
      end
  end.

Definition replace (s old new : string) : string := replace_from old new O s.

End Builtins.

Import Builtins.

(** [str(e)]. *)
Definition exn_str {rt : PyRuntime} (e : exn) : string :=
  match e with
  | OperationError msg | ValidationError msg | HistoryError msg => msg
  | Builtin b => exn_text b
  end.

(** [try: r  except classes as e: handler(e)]: an exception that [catches]
    accepts goes to the handler, any other one passes through. *)
Definition try_except {A} (r : outcome A) (catches : exn -> bool)
    (handler : exn -> outcome A) : outcome A :=
  match r with
  | Return a => Return a
  | Raise e => if catches e then handler e else Raise e
  end.

(** ** [app/operations.py] *)

(** The concrete subclasses of [Operation]; an instance has no state. *)
Inductive Operation :=
| AddOperation | SubtractOperation | MultiplyOperation | DivideOperation
| PowerOperation | RootOperation | ModulusOperation | IntDivideOperation
| PercentOperation | AbsDiffOperation.

#[global] Instance Operation_eq_dec : EqDecision Operation.
Proof. solve_decision. Defined.

(** [op.__class__.__name__]. *)
Definition class_name (op : Operation) : string :=
  match op with
  | AddOperation => "AddOperation"
  | SubtractOperation => "SubtractOperation"
  | MultiplyOperation => "MultiplyOperation"
  | DivideOperation => "DivideOperation"
  | PowerOperation => "PowerOperation"
  | RootOperation => "RootOperation"
  | ModulusOperation => "ModulusOperation"
  | IntDivideOperation => "IntDivideOperation"
  | PercentOperation => "PercentOperation"
  | AbsDiffOperation => "AbsDiffOperation"
  end.

Module Operations.
Section WithRuntime.
Context {rt : PyRuntime}.

(** [except (OverflowError, ValueError)]. *)
Definition overflow_or_value_error (e : exn) : bool :=
  match e with
  | Builtin OverflowError | Builtin ValueError => true
  | _ => false
  end.

Definition AddOperation_execute (a b : float) : outcome pynum :=
  Return (Float (add a b)).

Definition SubtractOperation_execute (a b : float) : outcome pynum :=
  Return (Float (sub a b)).

Definition MultiplyOperation_execute (a b : float) : outcome pynum :=
  Return (Float (mul a b)).

Definition DivideOperation_execute (a b : float) : outcome pynum :=
  if eqb b zero then Raise (OperationError "Cannot divide by zero")
  else Return (Float (div a b)).

Definition PowerOperation_execute (a b : float) : outcome pynum :=
  try_except (pow a b) overflow_or_value_error
    (fun e => Raise (OperationError ("Power operation failed: " +:+ exn_str e))).

Definition RootOperation_execute (a b : float) : outcome pynum :=
  if eqb b zero then Raise (OperationError "Cannot calculate 0th root")
  else
    even_root_of_negative ←
      (if ltb a zero then m ← float_rem b two; Return (eqb m zero)
       else Return false);
    if even_root_of_negative : bool
    then Raise (OperationError "Cannot calculate even root of negative number")
    else
      try_except (pow a (div one b)) overflow_or_value_error
        (fun e => Raise (OperationError ("Root operation failed: " +:+ exn_str e))).

Definition ModulusOperation_execute (a b : float) : outcome pynum :=
  if eqb b zero then Raise (OperationError "Cannot perform modulus with zero divisor")
  else m ← float_rem a b; Return (Float m).

Definition IntDivideOperation_execute (a b : float) : outcome pynum :=
  if eqb b zero then Raise (OperationError "Cannot divide by zero")
  else q ← float_floor_div a b; Return (Float q).

Definition PercentOperation_execute (a b : float) : outcome pynum :=
  if eqb b zero
  then Raise (OperationError "Cannot calculate percentage with zero denominator")
  else Return (Float (mul (div a b) hundred)).

Definition AbsDiffOperation_execute (a b : float) : outcome pynum :=
  Return (Float (fabs (sub a b))).

(** [op.execute(a, b)]: the method of the class of [op]. *)
Definition execute (op : Operation) (a b : float) : outcome pynum :=
  match op with
  | AddOperation => AddOperation_execute a b
  | SubtractOperation => SubtractOperation_execute a b
  | MultiplyOperation => MultiplyOperation_execute a b
  | DivideOperation => DivideOperation_execute a b
  | PowerOperation => PowerOperation_execute a b
  | RootOperation => RootOperation_execute a b
  | ModulusOperation => ModulusOperation_execute a b
  | IntDivideOperation => IntDivideOperation_execute a b
  | PercentOperation => PercentOperation_execute a b
  | AbsDiffOperation => AbsDiffOperation_execute a b
  end.

End WithRuntime.

Definition get_symbol (op : Operation) : string :=
  match op with
  | AddOperation => "+"
  | SubtractOperation => "-"
  | MultiplyOperation => "*"
  | DivideOperation => "/"
  | PowerOperation => "^"
  | RootOperation => "√"
  | ModulusOperation => "%"
  | IntDivideOperation => "//"
  | PercentOperation => "%of"
  | AbsDiffOperation => "|diff|"
  end.
End Operations.

Module OperationFactory.

(** The class attribute [_operations], in the order of the dict literal. *)
Definition _operations_items : list (string * Operation) :=
  [ ("add", AddOperation);
    ("subtract", SubtractOperation);
    ("multiply", MultiplyOperation);
    ("divide", DivideOperation);
    ("power", PowerOperation);
    ("root", RootOperation);
    ("modulus", ModulusOperation);
    ("int_divide", IntDivideOperation);
    ("percent", PercentOperation);
    ("abs_diff", AbsDiffOperation) ].

Definition _operations : gmap string Operation := list_to_map _operations_items.

Definition create_operation (operation_name : string) : outcome Operation :=
  match _operations !! lower operation_name with
  | None => Raise (OperationError ("Unknown operation: " +:+ operation_name))
  | Some operation_class => Return operation_class
  end.

Definition get_available_operations : list string := _operations_items.*1.

End OperationFactory.

(** ** [app/calculation.py] *)

(** A [datetime], as the number of microseconds since the epoch; [NaT] is
    the value that pandas gives to a missing timestamp. *)
Inductive datetime :=
| Instant (microseconds : Z)
| NaT.

Record Calculation := {
  operation : Operation;
  operand_a : float;
  operand_b : float;
  result : option pynum;
  timestamp : datetime
}.

(** The dict that [Calculation.to_dict] builds; the value under
    ['timestamp'] is the ISO text of [dict_timestamp]. *)
Record calculation_dict := {
  dict_operation : string;
  dict_operand_a : float;
  dict_operand_b : float;
  dict_result : option pynum;
  dict_timestamp : datetime
}.

Module Calculation_.

(** [Calculation(operation, operand_a, operand_b)], built when the clock
    reads [now]. *)
Definition __init__ (operation : Operation) (operand_a operand_b : float)
    (now : datetime) : Calculation :=
  {| operation := operation; operand_a := operand_a; operand_b := operand_b;
     result := None; timestamp := now |}.

Definition set_result (self : Calculation) (r : option pynum) : Calculation :=
  {| operation := operation self; operand_a := operand_a self;
     operand_b := operand_b self; result := r; timestamp := timestamp self |}.

(** [self.execute()]: the result and the calculation that now stores it. *)
Definition execute {rt : PyRuntime} (self : Calculation) : outcome (pynum * Calculation) :=
  r ← Operations.execute (operation self) (operand_a self) (operand_b self);
  Return (r, set_result self (Some r)).

Definition operation_name (self : Calculation) : string :=
  lower (replace (class_name (operation self)) "Operation" EmptyString).

Definition to_dict (self : Calculation) : calculation_dict :=
  {| dict_operation := operation_name self;
     dict_operand_a := operand_a self;
     dict_operand_b := operand_b self;
     dict_result := result self;
     dict_timestamp := timestamp self |}.

End Calculation_.

(** ** [app/input_validators.py] *)

(** [str(value)]. *)
Definition py_str {rt : PyRuntime} (value : pyobj) : string :=
  match value with
  | ObjFloat x => str_of_float x
  | ObjInt z => pretty z
  | ObjStr s => s
  | ObjNone => "None"
  end.

(** [str(r)] for the result that a calculation holds. *)
Definition str_of_result {rt : PyRuntime} (r : option pynum) : string :=
  match r with
  | None => "None"
  | Some (Float x) => str_of_float x
  | Some (Complex re im) => str_of_complex re im
  end.

(** [float(value)]. *)
Definition py_float {rt : PyRuntime} (value : pyobj) : outcome float :=
  match value with
  | ObjFloat x => Return x
  | ObjInt z => float_of_int z
  | ObjStr s => match float_of_str s with
                | Some x => Return x
                | None => Raise (Builtin ValueError)
                end
  | ObjNone => Raise (Builtin TypeError)
  end.

Section Validators.
Context {rt : PyRuntime}.

(** [except (ValueError, TypeError)]. *)
Definition value_or_type_error (e : exn) : bool :=
  match e with
  | Builtin ValueError | Builtin TypeError => true
  | _ => false
  end.

Definition validate_number (value : pyobj) (param_name : string) : outcome float :=
  try_except (py_float value) value_or_type_error
    (fun _ => Raise (ValidationError
       (param_name +:+ " must be a number, got '" +:+ py_str value +:+ "'"))).

Definition validate_in_range (value max_value : float) (param_name : string)
    : outcome unit :=
  if gtb (fabs value) max_value
  then Raise (ValidationError
         (param_name +:+ " exceeds maximum allowed value of " +:+ str_of_float max_value))
  else Return tt.

End Validators.

(** ** Python lists *)

(** [l.pop()]: the last element and the list without it. *)
Definition list_pop {A} (l : list A) : option (A * list A) :=
  match reverse l with
  | [] => None
  | x :: r => Some (x, reverse r)
  end.

(** [l.pop(0)] on a non-empty list, as the list that is left. *)
Definition list_pop0 {A} (l : list A) : list A := drop 1 l.

(** [l[start:]], for a start counted from the end when it is negative. *)
Definition slice_from {A} (l : list A) (start : Z) : list A :=
  let len := Z.of_nat (length l) in
  let start := if start <? 0 then Z.max (len + start) 0 else Z.min start len in
  drop (Z.to_nat start) l.

(** [copy.deepcopy]: a value is its own copy. *)
Definition deepcopy {A} (x : A) : A := x.

(** ** Files

    pandas is not modelled down to the text of a file.  A file that
    [pd.read_csv] can read is the table of its rows, and a field of a row is
    given by what the loader gets from it: the text of the ['operation']
    cell when pandas reads it as a string, the value of [float(cell)] for a
    numeric field (NaN for an empty cell), the value of
    [pd.to_datetime(cell)] for the timestamp ([NaT] for an empty cell), and
    [None] where that conversion raises (or the column is missing).
    [to_csv] is taken to write a float and an ISO timestamp in a form that
    reads back as the same value.

    A file is named by one path: two paths stand for two files.  The log
    file of the logger is not among the files of a [filesystem]; what is
    written to it is the [Logger] of the calculator. *)

Record csv_row := {
  csv_operation : option string;
  csv_operand_a : option float;
  csv_operand_b : option float;
  csv_result : option float;
  csv_timestamp : option datetime
}.

Inductive file :=
| Table (rows : list csv_row)
    (** a file that [pd.read_csv] parses *)
| Unreadable (msg : string)
    (** a file on which [pd.read_csv] raises an exception with text [msg] *).

(** The exceptions of reading and writing a file: [FileNotFoundError], and
    any other exception of the system or of pandas, with its text. *)
Inductive io_exn :=
| FileNotFoundError (msg : string)
| IOFailure (msg : string).

Definition io_exn_str (e : io_exn) : string :=
  match e with FileNotFoundError msg | IOFailure msg => msg end.

(** The files by path, and the paths that cannot be written with the text
    of the error that the system reports there. *)
Record filesystem := {
  files : gmap string file;
  write_errors : gmap string string
}.

(** Whether pandas takes a result for a missing value: [None], a NaN, or
    a complex number with a NaN part.  [to_csv] writes an empty cell for
    it, which reads back as NaN. *)
Definition is_na (v : option pynum) : bool :=
  match v with
  | None => true
  | Some (Float r) => is_nan r
  | Some (Complex re im) => is_nan re || is_nan im
  end.

Definition is_complex (v : option pynum) : bool :=
  match v with Some (Complex _ _) => true | _ => false end.

(** What [float] reads from the cell that [to_csv] writes for a result.
    [complex_column] tells whether the column of the frame holds a complex
    number: pandas gives a column one type, so in such a column every
    float is written as complex text, like [(8+0j)], which [float]
    rejects as it rejects the text of a complex number. *)
Definition result_cell (complex_column : bool) (v : option pynum) : option float :=
  if is_na v then Some nan
  else match v with
       | Some (Float r) => if complex_column then None else Some r
       | _ => None
       end.

Definition row_of (complex_column : bool) (d : calculation_dict) : csv_row :=
  {| csv_operation := Some (dict_operation d);
     csv_operand_a := Some (dict_operand_a d);
     csv_operand_b := Some (dict_operand_b d);
     csv_result := result_cell complex_column (dict_result d);
     csv_timestamp := Some (dict_timestamp d) |}.

(** The row that [DataFrame([d]).to_csv] writes for one dict. *)
Definition row_of_dict (d : calculation_dict) : csv_row :=
  row_of (is_complex (dict_result d)) d.

(** The rows that [DataFrame(data).to_csv] writes: one row per dict, with
    the results in one column. *)
Definition frame_rows (data : list calculation_dict) : list csv_row :=
  row_of (existsb (fun d => is_complex (dict_result d)) data) <$> data.

(** [pd.DataFrame(data).to_csv(filepath, index=False)]. *)
Definition to_csv (fs : filesystem) (filepath : string) (data : list calculation_dict)
    : (io_exn + unit) * filesystem :=
  match write_errors fs !! filepath with
  | Some msg => (inl (IOFailure msg), fs)
  | None =>
      (inr tt,
       {| files := <[filepath := Table (frame_rows data)]> (files fs);
          write_errors := write_errors fs |})
  end.

(** [pd.read_csv(filepath)]. *)
Definition read_csv (fs : filesystem) (filepath : string) : io_exn + list csv_row :=
  match files fs !! filepath with
  | None => inl (FileNotFoundError ("No such file or directory: " +:+ filepath))
  | Some (Unreadable msg) => inl (IOFailure msg)
  | Some (Table rows) => inr rows
  end.

(** ** [app/history.py] *)

Record CalculationHistory := {
  _history : list Calculation;
  _max_size : Z
}.

Module CalculationHistory_.

Definition __init__ (max_size : Z) : CalculationHistory :=
  {| _history := []; _max_size := max_size |}.

Definition set_history (self : CalculationHistory) (h : list Calculation)
    : CalculationHistory :=
  {| _history := h; _max_size := _max_size self |}.

Definition add_calculation (self : CalculationHistory) (calculation : Calculation)
    : CalculationHistory :=
  let h := _history self ++ [calculation] in
  (* Remove oldest if exceeding max size *)
  if Z.of_nat (length h) >? _max_size self
  then set_history self (list_pop0 h)
  else set_history self h.

Definition get_history (self : CalculationHistory) : list Calculation :=
  _history self.

Definition get_last_calculation (self : CalculationHistory) : option Calculation :=
  last (_history self).

Definition clear_history (self : CalculationHistory) : CalculationHistory :=
  set_history self [].

Definition get_count (self : CalculationHistory) : Z :=
  Z.of_nat (length (_history self)).

(** Only a [HistoryError] leaves [save_to_csv]: every exception of the
    writing is wrapped. *)
Definition save_to_csv (self : CalculationHistory) (fs : filesystem) (filepath : string)
    : outcome unit * filesystem :=
  match _history self with
  | [] => (Raise (HistoryError "No history to save"), fs)
  | _ :: _ =>
      let data := Calculation_.to_dict <$> _history self in
      match to_csv fs filepath data with
      | (inr _, fs') => (Return tt, fs')
      | (inl e, fs') =>
          (Raise (HistoryError ("Failed to save history to CSV: " +:+ io_exn_str e)), fs')
      end
  end.

(** The body of the loop of [load_from_csv] for one row: the calculation
    that the row gives, or [None] when one of the conversions raises and
    the row is skipped.  The timestamp that the constructor sets is
    overwritten by the one of the row. *)
Definition load_row (row : csv_row) : option Calculation :=
  name ← csv_operation row;
  match OperationFactory.create_operation name with
  | Raise _ => None
  | Return operation =>
      a ← csv_operand_a row;
      b ← csv_operand_b row;
      r ← csv_result row;
      t ← csv_timestamp row;
      Some {| operation := operation; operand_a := a; operand_b := b;
              result := Some (Float r); timestamp := t |}
  end.

Definition load_rows (history : list Calculation) (rows : list csv_row)
    : list Calculation :=
  foldl (fun h row => match load_row row with
                      | Some calc => h ++ [calc]
                      | None => h
                      end) history rows.

Definition load_from_csv (self : CalculationHistory) (fs : filesystem) (filepath : string)
    : outcome unit * CalculationHistory :=
  match read_csv fs filepath with
  | inl (FileNotFoundError _) =>
      (Raise (HistoryError ("History file not found: " +:+ filepath)), self)
  | inl e =>
      (Raise (HistoryError ("Failed to load history from CSV: " +:+ io_exn_str e)), self)
  | inr rows =>
      (* Clear existing history *)
      let h := load_rows [] rows in
      (* Enforce max size *)
      let h := if Z.of_nat (length h) >? _max_size self
               then slice_from h (- _max_size self) else h in
      (Return tt, set_history self h)
  end.

End CalculationHistory_.

(** ** [app/calculator_memento.py] *)

Record CalculatorMemento := {
  _history_snapshot : list Calculation
}.

Module CalculatorMemento_.

Definition __init__ (history_snapshot : list Calculation) : CalculatorMemento :=
  {| _history_snapshot := deepcopy history_snapshot |}.

Definition get_snapshot (self : CalculatorMemento) : list Calculation :=
  deepcopy (_history_snapshot self).

End CalculatorMemento_.

Record CalculatorCaretaker := {
  _undo_stack : list CalculatorMemento;
  _redo_stack : list CalculatorMemento
}.

Module CalculatorCaretaker_.

Definition __init__ : CalculatorCaretaker :=
  {| _undo_stack := []; _redo_stack := [] |}.

Definition save_state (self : CalculatorCaretaker) (history : list Calculation)
    : CalculatorCaretaker :=
  let memento := CalculatorMemento_.__init__ history in
  {| _undo_stack := _undo_stack self ++ [memento];
     (* Clear redo stack when new state is saved *)
     _redo_stack := [] |}.

Definition undo (self : CalculatorCaretaker) (current_history : list Calculation)
    : outcome (list Calculation) * CalculatorCaretaker :=
  match list_pop (_undo_stack self) with
  | None => (Raise (HistoryError "Nothing to undo"), self)
  | Some (previous_memento, undo_stack) =>
      (* Save current state to redo stack *)
      let current_memento := CalculatorMemento_.__init__ current_history in
      (Return (CalculatorMemento_.get_snapshot previous_memento),
       {| _undo_stack := undo_stack;
          _redo_stack := _redo_stack self ++ [current_memento] |})
  end.

Definition redo (self : CalculatorCaretaker)
    : outcome (list Calculation) * CalculatorCaretaker :=
  match list_pop (_redo_stack self) with
  | None => (Raise (HistoryError "Nothing to redo"), self)
  | Some (next_memento, redo_stack) =>
      (* Save it back to undo stack *)
      (Return (CalculatorMemento_.get_snapshot next_memento),
       {| _undo_stack := _undo_stack self ++ [next_memento];
          _redo_stack := redo_stack |})
  end.

Definition can_undo (self : CalculatorCaretaker) : bool :=
  bool_decide (0 < length (_undo_stack self))%nat.

Definition can_redo (self : CalculatorCaretaker) : bool :=
  bool_decide (0 < length (_redo_stack self))%nat.

Definition clear (self : CalculatorCaretaker) : CalculatorCaretaker :=
  {| _undo_stack := []; _redo_stack := [] |}.

End CalculatorCaretaker_.

(** ** [app/logger.py] and [app/calculator_config.py]

    The logger is the list of the records it was given, oldest first.  Its
    file handler appends each of them to [log_file] as one line, after the
    time and the name that the formatter puts before the level and the
    message, and its console handler shows those of level INFO and above:
    a [Logger] stands for what the run has written to the log file, which
    is no file of a [filesystem].  The configuration is the values that
    [CalculatorConfig] read from the environment. *)

Inductive log_level := DEBUG | INFO | WARNING | ERROR.

Definition Logger : Type := list (log_level * string).

(** [os.path.join(log_dir, log_file)] of [_setup_logger]. *)
Definition log_file : string := "logs/calculator.log".

Module Logger_.
Definition info (self : Logger) (message : string) : Logger :=
  self ++ [(INFO, message)].

Definition error (self : Logger) (message : string) : Logger :=
  self ++ [(ERROR, message)].

Definition log_calculation {rt : PyRuntime} (self : Logger) (operation : string)
    (operand_a operand_b : float) (result : option pynum) : Logger :=
  info self ("Calculation: " +:+ str_of_float operand_a +:+ " " +:+ operation +:+ " "
             +:+ str_of_float operand_b +:+ " = " +:+ str_of_result result).
End Logger_.

Record CalculatorConfig := {
  max_history_size : Z;
  auto_save : bool;
  precision : Z;
  max_input_value : float;
  history_file : string
}.

(** ** [app/calculator.py] *)

(** The observers; [AutoSaveObserver] holds the history of the calculator
    it is registered with, and its path. *)
Inductive CalculationObserver :=
| LoggingObserver
| AutoSaveObserver (filepath : string).

Record Calculator := {
  config : CalculatorConfig;
  logger : Logger;
  history : CalculationHistory;
  caretaker : CalculatorCaretaker;
  observers : list CalculationObserver
}.

Module Calculator_.

Definition set_logger (self : Calculator) (l : Logger) : Calculator :=
  {| config := config self; logger := l; history := history self;
     caretaker := caretaker self; observers := observers self |}.

Definition set_history (self : Calculator) (h : CalculationHistory) : Calculator :=
  {| config := config self; logger := logger self; history := h;
     caretaker := caretaker self; observers := observers self |}.

Definition set_caretaker (self : Calculator) (c : CalculatorCaretaker) : Calculator :=
  {| config := config self; logger := logger self; history := history self;
     caretaker := c; observers := observers self |}.

Definition register_observer (self : Calculator) (observer : CalculationObserver)
    : Calculator :=
  {| config := config self; logger := logger self; history := history self;
     caretaker := caretaker self; observers := observers self ++ [observer] |}.

(** [Calculator()], for the configuration [cfg] and the records [log] that
    the logger already holds. *)
Definition __init__ (cfg : CalculatorConfig) (log : Logger) : Calculator :=
  let self :=
    {| config := cfg; logger := log;
       history := CalculationHistory_.__init__ (max_history_size cfg);
       caretaker := CalculatorCaretaker_.__init__;
       observers := [] |} in
  let self := register_observer self LoggingObserver in
  let self := if auto_save cfg
              then register_observer self (AutoSaveObserver (history_file cfg))
              else self in
  set_logger self (Logger_.info (logger self) "Calculator initialized").

Section WithRuntime.
Context {rt : PyRuntime}.

(** [observer.update(calculation)]; the auto-save drops a
    [HistoryError]. *)
Definition update (observer : CalculationObserver) (self : Calculator)
    (fs : filesystem) (calculation : Calculation) : Calculator * filesystem :=
  match observer with
  | LoggingObserver =>
      (set_logger self
         (Logger_.log_calculation (logger self)
            (Calculation_.operation_name calculation)
            (operand_a calculation) (operand_b calculation)
            (result calculation)), fs)
  | AutoSaveObserver filepath =>
      if CalculationHistory_.get_count (history self) >? 0
      then (self, (CalculationHistory_.save_to_csv (history self) fs filepath).2)
      else (self, fs)
  end.

Definition notify_observers (self : Calculator) (fs : filesystem)
    (calculation : Calculation) : Calculator * filesystem :=
  foldl (fun '(self, fs) observer => update observer self fs calculation)
        (self, fs) (observers self).

(** The validation of the two operands, at the head of
    [perform_calculation]. *)
Definition validate_operands (self : Calculator) (operand_a operand_b : pyobj)
    : outcome (float * float) :=
  a ← validate_number operand_a "operand_a";
  b ← validate_number operand_b "operand_b";
  _ ← validate_in_range a (max_input_value (config self)) "operand_a";
  _ ← validate_in_range b (max_input_value (config self)) "operand_b";
  Return (a, b).

(** Creation, execution and rounding: the steps of
    [perform_calculation] between the checkpoint and the append. *)
Definition create_and_execute (self : Calculator) (operation_name : string)
    (a b : float) (now : datetime) : outcome (float * Calculation) :=
  operation ← OperationFactory.create_operation operation_name;
  let calculation := Calculation_.__init__ operation a b now in
  '(r, calculation) ← Calculation_.execute calculation;
  (* Round result to configured precision *)
  r ← round r (precision (config self));
  Return (r, Calculation_.set_result calculation (Some (Float r))).

Definition perform_calculation (self : Calculator) (fs : filesystem)
    (operation_name : string) (operand_a operand_b : pyobj) (now : datetime)
    : outcome float * Calculator * filesystem :=
  (* Validate inputs *)
  match validate_operands self operand_a operand_b with
  | Raise e => (Raise e, self, fs)
  | Return (a, b) =>
      (* Save state before performing calculation (for undo) *)
      let self :=
        set_caretaker self
          (CalculatorCaretaker_.save_state (caretaker self)
             (CalculationHistory_.get_history (history self))) in
      (* Create and execute calculation *)
      match create_and_execute self operation_name a b now with
      | Raise e => (Raise e, self, fs)
      | Return (r, calculation) =>
          (* Add to history *)
          let self :=
            set_history self
              (CalculationHistory_.add_calculation (history self) calculation) in
          (* Notify observers *)
          let '(self, fs) := notify_observers self fs calculation in
          (Return r, self, fs)
      end
  end.

End WithRuntime.

Definition undo (self : Calculator) : outcome unit * Calculator :=
  match CalculatorCaretaker_.undo (caretaker self)
          (CalculationHistory_.get_history (history self)) with
  | (Raise e, _) => (Raise e, self)
  | (Return restored_history, c) =>
      let self := set_caretaker self c in
      let self := set_history self
                    (CalculationHistory_.set_history (history self) restored_history) in
      (Return tt, set_logger self (Logger_.info (logger self) "Undo performed"))
  end.

Definition redo (self : Calculator) : outcome unit * Calculator :=
  match CalculatorCaretaker_.redo (caretaker self) with
  | (Raise e, _) => (Raise e, self)
  | (Return restored_history, c) =>
      let self := set_caretaker self c in
      let self := set_history self
                    (CalculationHistory_.set_history (history self) restored_history) in
      (Return tt, set_logger self (Logger_.info (logger self) "Redo performed"))
  end.

Definition clear_history (self : Calculator) : Calculator :=
  let self := set_history self (CalculationHistory_.clear_history (history self)) in
  let self := set_caretaker self (CalculatorCaretaker_.clear (caretaker self)) in
  set_logger self (Logger_.info (logger self) "History cleared").

End Calculator_.

(** ** Runs of a history store

    The operations that a caller applies to a history store and to the
    files it saves to and loads from, and their effect in sequence. *)

Inductive history_op :=
| OpAdd (calculation : Calculation)
| OpClear
| OpSave (filepath : string)
| OpLoad (filepath : string).

Definition is_load (op : history_op) : bool :=
  match op with OpLoad _ => true | _ => false end.

Definition run_op (st : CalculationHistory * filesystem) (op : history_op)
    : CalculationHistory * filesystem :=
  let '(h, fs) := st in
  match op with
  | OpAdd calculation => (CalculationHistory_.add_calculation h calculation, fs)
  | OpClear => (CalculationHistory_.clear_history h, fs)
  | OpSave filepath => (h, (CalculationHistory_.save_to_csv h fs filepath).2)
  | OpLoad filepath => ((CalculationHistory_.load_from_csv h fs filepath).2, fs)
  end.

Definition run_ops (st : CalculationHistory * filesystem) (ops : list history_op)
    : CalculationHistory * filesystem :=
  foldl run_op st ops.

(** The bound of a history store: no more records than [_max_size]. *)
Definition within_max_size (h : CalculationHistory) : Prop :=
  Z.of_nat (length (_history h)) <= _max_size h.

(** ** Auxiliary notions of the statements *)

(** The two states between which the caretaker moves once [H0] and [H1]
    were saved on top of [c], [H2] was current at the first undo, and a
    redo followed: [H1] is in neither. *)
Definition undone (c : CalculatorCaretaker) (H0 H2 : list Calculation)
    : CalculatorCaretaker :=
  {| _undo_stack := _undo_stack c ++ [CalculatorMemento_.__init__ H0];
     _redo_stack := [CalculatorMemento_.__init__ H2] |}.

Definition redone (c : CalculatorCaretaker) (H0 H2 : list Calculation)
    : CalculatorCaretaker :=
  {| _undo_stack := (_undo_stack c ++ [CalculatorMemento_.__init__ H0])
                      ++ [CalculatorMemento_.__init__ H2];
     _redo_stack := [] |}.

(** The operations whose saved name is a key of the factory. *)
Definition name_is_registered (op : Operation) : bool :=
  match OperationFactory.create_operation
          (lower (replace (class_name op) "Operation" EmptyString)) with
  | Return op' => bool_decide (op' = op)
  | Raise _ => false
  end.

(** The checkpoint that [perform_calculation] takes once the operands are
    validated. *)
Definition checkpointed (self : Calculator) : Calculator :=
  Calculator_.set_caretaker self
    (CalculatorCaretaker_.save_state (caretaker self)
       (CalculationHistory_.get_history (history self))).

(** The power that the root of index 3 takes. *)
Definition third : float := div one (of_Z 3).

Definition is_logging (observer : CalculationObserver) : bool :=
  match observer with LoggingObserver => true | AutoSaveObserver _ => false end.

(** ** Values for running the model *)

(** A runtime that reads no text as a float, prints nothing and whose
    powers fail, with a domain error for the C library and an overflow for
    the complex power; it serves to run the model on inputs that do not
    reach these services. *)
Definition bare_runtime : PyRuntime :=
  {| float_of_str := fun _ => None;
     str_of_float := fun _ => EmptyString;
     libm_pow := fun _ _ => (nan, EDOM);
     complex_pow := fun _ _ => None;
     str_of_complex := fun _ _ => EmptyString;
     exn_text := fun _ => EmptyString |}.

Definition no_files : filesystem := {| files := ∅; write_errors := ∅ |}.

Definition default_config : CalculatorConfig :=
  {| max_history_size := 100; auto_save := true; precision := 2;
     max_input_value := of_Z 1000000;
     history_file := "history/calculation_history.csv" |}.

(** An executed calculation [a op b = r] on small integers, stamped [t]. *)
Definition executed (op : Operation) (a b r : Z) (t : Z) : Calculation :=
  {| operation := op; operand_a := of_Z a; operand_b := of_Z b;
     result := Some (Float (of_Z r)); timestamp := Instant t |}.

(** ** Further definitions

    The parts of the package that the statements of the second half of the
    properties need. *)

(** The store after the appends of [calculations], in order. *)
Definition add_all (h : CalculationHistory) (calculations : list Calculation)
    : CalculationHistory :=
  foldl CalculationHistory_.add_calculation h calculations.

(** The last [n] elements of a list. *)
Definition last_n {A} (n : nat) (l : list A) : list A := drop (length l - n) l.

(** The rows that [save_to_csv] writes for a list of records. *)
Definition rows_of (records : list Calculation) : list csv_row :=
  frame_rows (Calculation_.to_dict <$> records).

(** The two operations whose records a saved file does not give back. *)
Definition reloadable (c : Calculation) : Prop :=
  operation c <> IntDivideOperation /\ operation c <> AbsDiffOperation.

(** *** [app/input_validators.py], the two other validators *)

Section MoreValidators.
Context {rt : PyRuntime}.

Definition validate_not_zero (value : float) (param_name : string) : outcome unit :=
  if eqb value zero
  then Raise (ValidationError (param_name +:+ " cannot be zero"))
  else Return tt.

Definition validate_positive (value : float) (param_name : string) : outcome unit :=
  if leb value zero
  then Raise (ValidationError
         (param_name +:+ " must be positive, got " +:+ str_of_float value))
  else Return tt.

End MoreValidators.

(** The operations that divide by their second operand, with the text of
    the error they raise on a zero. *)
Definition zero_divisor_error (op : Operation) : option string :=
  match op with
  | DivideOperation | IntDivideOperation => Some "Cannot divide by zero"
  | ModulusOperation => Some "Cannot perform modulus with zero divisor"
  | PercentOperation => Some "Cannot calculate percentage with zero denominator"
  | _ => None
  end.

(** Zero to a negative finite power. *)
Definition zero_to_negative (a b : float) : bool :=
  eqb a zero && ltb b zero && negb (is_infinity b).

(** ** [app/calculation.py] and [app/history.py], the texts *)

(** The newline. *)
Definition newline : string := String (ascii_of_nat 10) EmptyString.

(** [sep.join(parts)]. *)
Fixpoint join (sep : string) (parts : list string) : string :=
  match parts with
  | [] => EmptyString
  | [part] => part
  | part :: rest => part +:+ sep +:+ join sep rest
  end.

Section Texts.
Context {rt : PyRuntime}.

(** [Calculation.__str__]. *)
Definition Calculation_str (self : Calculation) : string :=
  match result self with
  | Some _ =>
      str_of_float (operand_a self) +:+ " " +:+ Operations.get_symbol (operation self)
      +:+ " " +:+ str_of_float (operand_b self) +:+ " = " +:+ str_of_result (result self)
  | None =>
      str_of_float (operand_a self) +:+ " " +:+ Operations.get_symbol (operation self)
      +:+ " " +:+ str_of_float (operand_b self)
  end.

(** [CalculationHistory.__str__]; the records are numbered from 1. *)
Definition CalculationHistory_str (self : CalculationHistory) : string :=
  match _history self with
  | [] => "No calculations in history"
  | _ :: _ =>
      join newline
        ("Calculation History:"
         :: imap (fun i calc => pretty (S i) +:+ ". " +:+ Calculation_str calc)
                 (_history self))
  end.

End Texts.

(** ** The methods of [str] that the loop applies to a line

    A line is a Python [str], given by the bytes of its UTF-8 form.  The
    methods [strip], [lower] and [split] of the interpreter work on
    Unicode text: they are taken as given, with what they do on ASCII
    text, which is written out here. *)

(** Whether a text holds ASCII characters only. *)
Definition is_ascii (s : string) : bool :=
  forallb (fun c => (nat_of_ascii c <? 128)%nat) (list_ascii_of_string s).

Module AsciiText.

(** The ASCII characters that [str.isspace] accepts. *)
Definition is_space (c : ascii) : bool :=
  let n := nat_of_ascii c in
  (((9 <=? n) && (n <=? 13)) || ((28 <=? n) && (n <=? 32)))%nat.

Fixpoint lstrip_chars (cs : list ascii) : list ascii :=
  match cs with
  | c :: cs' => if is_space c then lstrip_chars cs' else cs
  | [] => []
  end.

(** [s.strip()] for an ASCII text. *)
Definition strip (s : string) : string :=
  string_of_list_ascii
    (rev (lstrip_chars (rev (lstrip_chars (list_ascii_of_string s))))).

(** The words of a list of characters; [word] holds the characters of the
    current word, last first. *)
Fixpoint split_chars (cs : list ascii) (word : list ascii) : list string :=
  match cs with
  | [] => match word with
          | [] => []
          | _ :: _ => [string_of_list_ascii (rev word)]
          end
  | c :: cs' =>
      if is_space c
      then match word with
           | [] => split_chars cs' []
           | _ :: _ => string_of_list_ascii (rev word) :: split_chars cs' []
           end
      else split_chars cs' (c :: word)
  end.

(** [s.split()] for an ASCII text. *)
Definition split (s : string) : list string :=
  split_chars (list_ascii_of_string s) [].

End AsciiText.

Class PyStr := {
  (** [s.strip()] *)
  str_strip : string -> string;
  (** [s.lower()] *)
  str_lower : string -> string;
  (** [s.split()] *)
  str_split : string -> list string;
  str_strip_ascii : forall s, is_ascii s = true -> str_strip s = AsciiText.strip s;
  str_lower_ascii : forall s, is_ascii s = true -> str_lower s = lower s;
  str_split_ascii : forall s, is_ascii s = true -> str_split s = AsciiText.split s
}.

(** The methods that know ASCII only. *)
Definition ascii_text : PyStr :=
  {| str_strip := AsciiText.strip;
     str_lower := lower;
     str_split := AsciiText.split;
     str_strip_ascii := fun _ _ => eq_refl;
     str_lower_ascii := fun _ _ => eq_refl;
     str_split_ascii := fun _ _ => eq_refl |}.

(** ** [app/calculator.py], the commands and the loop

    A session is the calculator, the files other than the log file, and
    what was printed: the list of the texts given to [print], in order.
    The prompt of [input] and what the console handler of the logger shows
    are not recorded.  What the user does at the prompt is a line of text,
    an interrupt (Ctrl-C) or the end of the input. *)

Inductive input_event :=
| Line (text : string)
| Interrupt
| EndOfInput.

Record session := {
  calculator : Calculator;
  disk : filesystem;
  screen : list string
}.

Module Repl.

Definition print (s : session) (text : string) : session :=
  {| calculator := calculator s; disk := disk s; screen := screen s ++ [text] |}.

Definition set_calculator (s : session) (c : Calculator) : session :=
  {| calculator := c; disk := disk s; screen := screen s |}.

Definition set_disk (s : session) (fs : filesystem) : session :=
  {| calculator := calculator s; disk := fs; screen := screen s |}.

Definition log_info (s : session) (message : string) : session :=
  set_calculator s
    (Calculator_.set_logger (calculator s)
       (Logger_.info (logger (calculator s)) message)).

Definition log_error (s : session) (message : string) : session :=
  set_calculator s
    (Calculator_.set_logger (calculator s)
       (Logger_.error (logger (calculator s)) message)).

Definition help_text : string := "
Available Commands:
==================
Arithmetic Operations:
  add <a> <b>       - Add two numbers
  subtract <a> <b>  - Subtract b from a
  multiply <a> <b>  - Multiply two numbers
  divide <a> <b>    - Divide a by b
  power <a> <b>     - Raise a to the power of b
  root <a> <b>      - Calculate the bth root of a
  modulus <a> <b>   - Calculate a modulo b
  int_divide <a> <b> - Integer division of a by b
  percent <a> <b>   - Calculate percentage (a/b * 100)
  abs_diff <a> <b>  - Absolute difference between a and b

History Commands:
  history           - Show calculation history
  clear             - Clear calculation history
  undo              - Undo last calculation
  redo              - Redo last undone calculation
  save              - Save history to CSV file
  load              - Load history from CSV file

Other Commands:
  help              - Show this help message
  exit              - Exit the calculator
        ".

Section WithRuntime.
Context {rt : PyRuntime} {tx : PyStr}.

(** [Calculator.show_history]. *)
Definition show_history (s : session) : session :=
  print s (newline +:+ CalculationHistory_str (history (calculator s))).

(** [Calculator.clear_history], with its [print]. *)
Definition clear_history (s : session) : session :=
  print (set_calculator s (Calculator_.clear_history (calculator s))) "History cleared".

(** [Calculator.save_history]. *)
Definition save_history (s : session) : session :=
  let path := history_file (config (calculator s)) in
  match CalculationHistory_.save_to_csv (history (calculator s)) (disk s) path with
  | (Return _, fs) =>
      let s := set_disk s fs in
      let s := log_info s ("History saved to " +:+ path) in
      print s ("History saved to " +:+ path)
  | (Raise e, fs) => print (set_disk s fs) ("Error: " +:+ exn_str e)
  end.

(** [Calculator.load_history]. *)
Definition load_history (s : session) : session :=
  let path := history_file (config (calculator s)) in
  match CalculationHistory_.load_from_csv (history (calculator s)) (disk s) path with
  | (Return _, h) =>
      let s := set_calculator s (Calculator_.set_history (calculator s) h) in
      let s := log_info s ("History loaded from " +:+ path) in
      print s ("History loaded from " +:+ path)
  | (Raise e, h) =>
      print (set_calculator s (Calculator_.set_history (calculator s) h))
            ("Error: " +:+ exn_str e)
  end.

(** [Calculator.show_help]. *)
Definition show_help (s : session) : session := print s help_text.

(** The commands [undo] and [redo] of the loop. *)
Definition undo_command (s : session) : session :=
  match Calculator_.undo (calculator s) with
  | (Return _, c) => show_history (print (set_calculator s c) "Undo successful")
  | (Raise e, c) => print (set_calculator s c) ("Error: " +:+ exn_str e)
  end.

Definition redo_command (s : session) : session :=
  match Calculator_.redo (calculator s) with
  | (Return _, c) => show_history (print (set_calculator s c) "Redo successful")
  | (Raise e, c) => print (set_calculator s c) ("Error: " +:+ exn_str e)
  end.

(** [except (OperationError, ValidationError)]. *)
Definition operation_or_validation_error (e : exn) : bool :=
  match e with
  | OperationError _ | ValidationError _ => true
  | _ => false
  end.

(** The branch of the loop for an arithmetic command: the session it
    leaves, and the exception that goes on to the handlers of the loop, if
    any. *)
Definition arithmetic_command (s : session) (command : string) (parts : list string)
    (now : datetime) : option exn * session :=
  match parts with
  | [_; number1; number2] =>
      match Calculator_.perform_calculation (calculator s) (disk s) command
              (ObjStr number1) (ObjStr number2) now with
      | (Return r, c, fs) =>
          (None, print (set_disk (set_calculator s c) fs) ("Result: " +:+ str_of_float r))
      | (Raise e, c, fs) =>
          let s := set_disk (set_calculator s c) fs in
          if operation_or_validation_error e
          then (None, log_error (print s ("Error: " +:+ exn_str e)) (exn_str e))
          else (Some e, s)
      end
  | _ =>
      let s := print s ("Error: " +:+ command +:+ " requires exactly 2 numbers") in
      (None, print s ("Usage: " +:+ command +:+ " <number1> <number2>"))
  end.

(** The handler [except Exception as e] of the loop, for the text of the
    exception. *)
Definition unexpected_error (s : session) (text : string) : session :=
  log_error (print s ("Unexpected error: " +:+ text)) ("Unexpected error: " +:+ text).

(** One turn of the loop of [repl]: whether the loop goes on, and the
    session. *)
Definition repl_turn (s : session) (event : input_event) (now : datetime)
    : bool * session :=
  match event with
  | Interrupt => (true, print s (newline +:+ "Use 'exit' to quit"))
  | EndOfInput => (true, unexpected_error s "EOF when reading a line")
  | Line text =>
      let user_input := str_lower (str_strip text) in
      if String.eqb user_input EmptyString then (true, s) else
      match str_split user_input with
      | [] => (true, unexpected_error s "list index out of range")
      | (command :: _) as parts =>
          if String.eqb command "exit"
          then (false, log_info (print s "Goodbye!") "Calculator exiting")
          else if String.eqb command "help" then (true, show_help s)
          else if String.eqb command "history" then (true, show_history s)
          else if String.eqb command "clear" then (true, clear_history s)
          else if String.eqb command "undo" then (true, undo_command s)
          else if String.eqb command "redo" then (true, redo_command s)
          else if String.eqb command "save" then (true, save_history s)
          else if String.eqb command "load" then (true, load_history s)
          else if bool_decide (command ∈ OperationFactory.get_available_operations)
          then match arithmetic_command s command parts now with
               | (None, s) => (true, s)
               | (Some e, s) => (true, unexpected_error s (exn_str e))
               end
          else
            let s := print s ("Unknown command: " +:+ command) in
            (true, print s "Type 'help' for available commands")
      end
  end.

(** The turns of the loop for the events of the user, until [exit] or the
    last event given: whether the loop has ended, and the session. *)
Fixpoint repl_turns (s : session) (events : list (input_event * datetime))
    : bool * session :=
  match events with
  | [] => (false, s)
  | (event, now) :: events' =>
      match repl_turn s event now with
      | (true, s') => repl_turns s' events'
      | (false, s') => (true, s')
      end
  end.

(** [Calculator.repl], for the events of the user. *)
Definition repl (s : session) (events : list (input_event * datetime)) : bool * session :=
  let s := print s "Calculator REPL - Type 'help' for available commands" in
  let s := log_info s "REPL started" in
  repl_turns s events.

(** [main()], for the configuration, the log and the files that it finds. *)
Definition main (cfg : CalculatorConfig) (log : Logger) (fs : filesystem)
    (events : list (input_event * datetime)) : bool * session :=
  repl {| calculator := Calculator_.__init__ cfg log; disk := fs; screen := [] |} events.

End WithRuntime.
End Repl.

(** ** Invariants of a session *)

(** The snapshots of a stack hold at most [max_size] records each. *)
Definition snapshots_within (max_size : Z) (stack : list CalculatorMemento) : Prop :=
  Forall (fun m => Z.of_nat (length (_history_snapshot m)) <= max_size) stack.

(** A calculator with bound [max_size] whose history and whose snapshots,
    on both stacks, are within the bound. *)
Definition calculator_within (max_size : Z) (self : Calculator) : Prop :=
  _max_size (history self) = max_size /\
  within_max_size (history self) /\
  snapshots_within max_size (_undo_stack (caretaker self)) /\
  snapshots_within max_size (_redo_stack (caretaker self)).

(** The command of a line, as the loop reads it: [parts[0]], when the
    line is not taken for an empty one and has a first word. *)
Definition first_word {tx : PyStr} (text : string) : option string :=
  let user_input := str_lower (str_strip text) in
  if String.eqb user_input EmptyString then None else head (str_split user_input).

(** ** Proof steps *)

(** A list is a prefix of itself with more appended at its end. *)
Ltac grows :=
  split; cbn; repeat apply prefix_app_r; first [done | etransitivity; by eauto].

(** A list with more appended at its end is longer. *)
Ltac printed :=
  cbn; rewrite ?length_app; cbn; lia.

(** * Properties *)

(** ** Python lists *)

Lemma list_pop_nil {A} : list_pop (@nil A) = None.
Proof. reflexivity. Qed.

Lemma list_pop_snoc {A} (l : list A) (x : A) : list_pop (l ++ [x]) = Some (x, l).
Proof. unfold list_pop. by rewrite reverse_snoc, reverse_involutive. Qed.

Lemma list_pop_None {A} (l : list A) : list_pop l = None -> l = [].
Proof.
  destruct l as [|y l _] using rev_ind; [done|].
  by rewrite list_pop_snoc.
Qed.

Lemma slice_from_length {A} (l : list A) (n : Z) :
  0 < n -> n < Z.of_nat (length l) -> Z.of_nat (length (slice_from l (- n))) = n.
Proof.
  intros Hpos Hlt. unfold slice_from.
  destruct (Z.ltb_spec (- n) 0) as [_|]; [|lia].
  rewrite length_drop. lia.
Qed.

(** ** The caretaker *)

Section Caretaker.
Import CalculatorCaretaker_.

Lemma save_state_redo_empty (c : CalculatorCaretaker) (history : list Calculation) :
  _redo_stack (save_state c history) = [].
Proof. reflexivity. Qed.

Lemma can_redo_empty (c : CalculatorCaretaker) :
  _redo_stack c = [] -> can_redo c = false.
Proof. unfold can_redo. by intros ->. Qed.

Lemma undo_top (us rs : list CalculatorMemento) (m : CalculatorMemento)
    (current : list Calculation) :
  undo {| _undo_stack := us ++ [m]; _redo_stack := rs |} current
  = (Return (_history_snapshot m),
     {| _undo_stack := us;
        _redo_stack := rs ++ [CalculatorMemento_.__init__ current] |}).
Proof. unfold undo; simpl. by rewrite list_pop_snoc. Qed.

Lemma redo_top (us rs : list CalculatorMemento) (m : CalculatorMemento) :
  redo {| _undo_stack := us; _redo_stack := rs ++ [m] |}
  = (Return (_history_snapshot m),
     {| _undo_stack := us ++ [m]; _redo_stack := rs |}).
Proof. unfold redo; simpl. by rewrite list_pop_snoc. Qed.

(** C1. After save_state(H0); save_state(H1), the first undo with current
    history H2 returns H1 and the redo returns H2; but the redo has pushed
    H2, not H1, on the undo stack: the next undo with current history H2
    returns H2 again, the next redo returns H2, and the caretaker is back
    where it was, so that every later undo and redo returns H2 and H1 is
    never returned again. *)
Theorem undo_after_redo_returns_current (c : CalculatorCaretaker)
    (H0 H1 H2 : list Calculation) :
  let c2 := save_state (save_state c H0) H1 in
  undo c2 H2 = (Return H1, undone c H0 H2) /\
  redo (undone c H0 H2) = (Return H2, redone c H0 H2) /\
  undo (redone c H0 H2) H2 = (Return H2, undone c H0 H2).
Proof.
  intros c2. split; [|split].
  - apply (undo_top _ [] (CalculatorMemento_.__init__ H1)).
  - apply (redo_top _ [] (CalculatorMemento_.__init__ H2)).
  - apply (undo_top _ [] (CalculatorMemento_.__init__ H2)).
Qed.

(** C6. [save_state] empties the redo stack whatever the state: after it,
    and in particular after an undo (that succeeded or not) followed by
    it, [can_redo] is false. *)
Theorem save_state_clears_redo (c : CalculatorCaretaker)
    (current Hx : list Calculation) :
  can_redo (save_state c Hx) = false /\
  can_redo (save_state (undo c current).2 Hx) = false.
Proof. split; apply can_redo_empty, save_state_redo_empty. Qed.

End Caretaker.

(** ** The history store *)

Section History.
Import CalculationHistory_.

Lemma add_calculation_history (h : CalculationHistory) (c : Calculation) :
  _history (add_calculation h c)
  = if Z.of_nat (length (_history h ++ [c])) >? _max_size h
    then drop 1 (_history h ++ [c]) else _history h ++ [c].
Proof. unfold add_calculation. by destruct (_ >? _). Qed.

Lemma add_calculation_max_size (h : CalculationHistory) (c : Calculation) :
  _max_size (add_calculation h c) = _max_size h.
Proof. unfold add_calculation. by destruct (_ >? _). Qed.

Lemma add_calculation_within (h : CalculationHistory) (c : Calculation) :
  0 <= _max_size h -> within_max_size h -> within_max_size (add_calculation h c).
Proof.
  unfold within_max_size. intros Hmax Hlen.
  rewrite add_calculation_history, add_calculation_max_size.
  destruct (Z.gtb_spec (Z.of_nat (length (_history h ++ [c]))) (_max_size h)) as [Hgt|Hle];
    [|done].
  rewrite length_drop, length_app in *. simpl in *. lia.
Qed.

Lemma clear_history_within (h : CalculationHistory) :
  0 <= _max_size h -> within_max_size (clear_history h).
Proof. unfold within_max_size. simpl. lia. Qed.

Lemma load_from_csv_max_size (h : CalculationHistory) (fs : filesystem) (path : string) :
  _max_size (load_from_csv h fs path).2 = _max_size h.
Proof.
  unfold load_from_csv. destruct (read_csv fs path) as [[]|]; reflexivity.
Qed.

Lemma load_from_csv_within (h : CalculationHistory) (fs : filesystem) (path : string) :
  0 < _max_size h -> within_max_size h -> within_max_size (load_from_csv h fs path).2.
Proof.
  unfold within_max_size. intros Hmax Hlen.
  rewrite load_from_csv_max_size.
  unfold load_from_csv. destruct (read_csv fs path) as [[]|rows]; simpl; try done.
  destruct (Z.gtb_spec (Z.of_nat (length (load_rows [] rows))) (_max_size h)) as [Hgt|Hle];
    [|done].
  rewrite slice_from_length; lia.
Qed.

Lemma run_op_max_size (st : CalculationHistory * filesystem) (op : history_op) :
  _max_size (run_op st op).1 = _max_size st.1.
Proof.
  destruct st as [h fs], op; simpl;
    auto using add_calculation_max_size, load_from_csv_max_size.
Qed.

Lemma run_op_within (st : CalculationHistory * filesystem) (op : history_op) :
  0 <= _max_size st.1 -> (_max_size st.1 = 0 -> is_load op = false) ->
  within_max_size st.1 -> within_max_size (run_op st op).1.
Proof.
  destruct st as [h fs]; simpl. intros Hmax Hload Hlen.
  destruct op; simpl in *.
  - by apply add_calculation_within.
  - by apply clear_history_within.
  - done.
  - apply load_from_csv_within; [|done].
    destruct (decide (_max_size h = 0)) as [Hz|]; [by apply Hload in Hz | lia].
Qed.

Lemma run_ops_within (ops : list history_op) (st : CalculationHistory * filesystem) :
  0 <= _max_size st.1 ->
  (_max_size st.1 = 0 -> forallb (fun op => negb (is_load op)) ops = true) ->
  within_max_size st.1 -> within_max_size (run_ops st ops).1.
Proof.
  revert st. induction ops as [|op ops IH]; intros st Hmax Hload Hlen; [done|].
  simpl. apply IH.
  - by rewrite run_op_max_size.
  - rewrite run_op_max_size. intros Hz. apply Hload in Hz. simpl in Hz.
    by apply andb_prop in Hz as [_ ?].
  - apply run_op_within; [done| |done].
    intros Hz. apply Hload in Hz. simpl in Hz.
    apply andb_prop in Hz as [Hz _]. by destruct (is_load op).
Qed.

(** C3, as the code has it.  A store created with a bound [max_size >= 0]
    holds at most [max_size] records after every run of appends, clears,
    saves and loads, the loads being left out when [max_size = 0]; an
    append to a store that holds exactly [max_size >= 1] records drops
    the record at index 0 and keeps the others in order, followed by the
    new one; and with [max_size = 2] the appends of R1, R2, R3 to the
    empty store leave [R2; R3]. *)
Theorem history_within_max_size (max_size : Z) (ops : list history_op) (fs : filesystem)
    (h : CalculationHistory) (c R1 R2 R3 : Calculation) :
  (0 <= max_size ->
   (max_size = 0 -> forallb (fun op => negb (is_load op)) ops = true) ->
   within_max_size (run_ops (__init__ max_size, fs) ops).1) /\
  (0 < _max_size h -> Z.of_nat (length (_history h)) = _max_size h ->
   _history (add_calculation h c) = drop 1 (_history h) ++ [c] /\
   Z.of_nat (length (_history (add_calculation h c))) = _max_size h) /\
  _history (add_calculation (add_calculation (add_calculation (__init__ 2) R1) R2) R3)
  = [R2; R3].
Proof.
  split; [|split].
  - intros Hmax Hload. apply run_ops_within; simpl; [done|done|].
    unfold within_max_size. simpl. lia.
  - intros Hmax Hlen. rewrite add_calculation_history.
    rewrite length_app. simpl.
    destruct (Z.gtb_spec (Z.of_nat (length (_history h) + 1)) (_max_size h)); [|lia].
    destruct (_history h) as [|x l]; simpl in *; [lia|].
    rewrite drop_0. split; [done|]. rewrite length_app. simpl. lia.
  - reflexivity.
Qed.

(** C7. [save_to_csv] on an empty store raises [HistoryError] with the
    text of the empty history and leaves every file as it was, so that a
    load that follows sees what it would have seen before. *)
Theorem save_empty_history_fails (self other : CalculationHistory) (fs : filesystem)
    (filepath path : string) :
  _history self = [] ->
  save_to_csv self fs filepath = (Raise (HistoryError "No history to save"), fs) /\
  load_from_csv other (save_to_csv self fs filepath).2 path
  = load_from_csv other fs path.
Proof. unfold save_to_csv. by intros ->. Qed.

Lemma load_rows_invalid (rows : list csv_row) (h : list Calculation) :
  Forall (fun row => load_row row = None) rows -> load_rows h rows = h.
Proof.
  unfold load_rows. intros Hrows. revert h.
  induction Hrows as [|row rows Hrow _ IH]; intros h; simpl; [done|].
  by rewrite Hrow.
Qed.

(** C9. When the file cannot be read ([pd.read_csv] raises: the path does
    not exist, or the file is not a table), [load_from_csv] raises a
    [HistoryError] and the store keeps its records.  When the file is read,
    the records of the store do not count any more: the result is the one
    of loading into the cleared store, and when every row of the file is
    invalid the store ends up empty. *)
Theorem load_clears_once_file_is_read (self : CalculationHistory) (fs : filesystem)
    (filepath : string) :
  (files fs !! filepath = None ->
   load_from_csv self fs filepath
   = (Raise (HistoryError ("History file not found: " +:+ filepath)), self)) /\
  (forall e, read_csv fs filepath = inl e ->
   raises (load_from_csv self fs filepath).1 = true /\
   (load_from_csv self fs filepath).2 = self) /\
  (forall rows, files fs !! filepath = Some (Table rows) ->
   load_from_csv self fs filepath = load_from_csv (clear_history self) fs filepath /\
   (Forall (fun row => load_row row = None) rows ->
    load_from_csv self fs filepath = (Return tt, clear_history self))).
Proof.
  split; [|split].
  - intros Hnone. unfold load_from_csv, read_csv. by rewrite Hnone.
  - intros e He. unfold load_from_csv. rewrite He. by destruct e.
  - intros rows Hrows. unfold load_from_csv, read_csv. rewrite Hrows.
    split; [done|]. intros Hinvalid.
    rewrite (load_rows_invalid rows [] Hinvalid). simpl.
    destruct (_ >? _); [|done].
    unfold slice_from. by rewrite drop_nil.
Qed.

End History.

(** ** Saving and loading *)

Section Persistence.
Import CalculationHistory_.

Lemma load_rows_app (h : list Calculation) (rows1 rows2 : list csv_row) :
  load_rows h (rows1 ++ rows2) = load_rows (load_rows h rows1) rows2.
Proof. apply foldl_app. Qed.

Lemma load_rows_cons (h : list Calculation) (row : csv_row) (rows : list csv_row) :
  load_rows h (row :: rows)
  = load_rows (match load_row row with Some c => h ++ [c] | None => h end) rows.
Proof. reflexivity. Qed.

Lemma load_rows_from (h : list Calculation) (rows : list csv_row) :
  load_rows h rows = h ++ load_rows [] rows.
Proof.
  revert h. induction rows as [|row rows IH]; intros h.
  - by rewrite app_nil_r.
  - rewrite !load_rows_cons. destruct (load_row row) as [c|]; [|apply IH].
    rewrite (IH (h ++ [c])), (IH ([] ++ [c])). by rewrite <- app_assoc.
Qed.

Lemma create_operation_unknown (name : string) :
  lower name ∉ OperationFactory.get_available_operations ->
  OperationFactory.create_operation name
  = Raise (OperationError ("Unknown operation: " +:+ name)).
Proof.
  intros Hname.
  unfold OperationFactory.create_operation, OperationFactory._operations.
  by rewrite (not_elem_of_list_to_map_1 _ _ Hname).
Qed.

(** A row whose operation is not one of the ten names is skipped, and the
    rows around it are loaded as if it were not there. *)
Lemma load_rows_skip_unknown (row : csv_row) (name : string)
    (rows1 rows2 : list csv_row) (h : list Calculation) :
  csv_operation row = Some name ->
  lower name ∉ OperationFactory.get_available_operations ->
  load_row row = None /\
  load_rows h (rows1 ++ row :: rows2) = load_rows h (rows1 ++ rows2).
Proof.
  intros Hop Hname.
  assert (load_row row = None) as Hrow.
  { unfold load_row. rewrite Hop. simpl. by rewrite create_operation_unknown. }
  split; [done|]. by rewrite !load_rows_app, load_rows_cons, Hrow.
Qed.

(** A float is written, in a column of floats, so that it reads back as
    itself: a NaN through an empty cell. *)
Lemma result_cell_float (r : float) : result_cell false (Some (Float r)) = Some r.
Proof. by destruct r. Qed.

(** Without a complex result, the rows of a frame are the rows of its
    dicts taken one by one. *)
Lemma frame_rows_floats (data : list calculation_dict) :
  Forall (fun d => is_complex (dict_result d) = false) data ->
  frame_rows data = row_of_dict <$> data.
Proof.
  intros Hall. unfold frame_rows.
  assert (existsb (fun d => is_complex (dict_result d)) data = false) as ->.
  { induction Hall as [|d data Hd _ IH]; [done|]. cbn. by rewrite Hd, IH. }
  induction Hall as [|d data Hd _ IH]; [done|].
  rewrite !fmap_cons, IH. unfold row_of_dict. by rewrite Hd.
Qed.

Lemma frame_rows_saved (h : list Calculation) :
  Forall (fun c => exists r, result c = Some (Float r)) h ->
  frame_rows (Calculation_.to_dict <$> h) = row_of_dict <$> (Calculation_.to_dict <$> h).
Proof.
  intros Hall. apply frame_rows_floats, Forall_fmap.
  eapply Forall_impl; [exact Hall|]. intros c [r Hr]. cbn. by rewrite Hr.
Qed.

Lemma load_row_saved (c : Calculation) (r : float) :
  name_is_registered (operation c) = true -> result c = Some (Float r) ->
  load_row (row_of_dict (Calculation_.to_dict c)) = Some c.
Proof.
  unfold name_is_registered. intros Hname Hres.
  destruct c as [op a b res t]; simpl in *. subst res.
  unfold load_row, row_of_dict, row_of. cbn -[result_cell].
  rewrite result_cell_float.
  unfold Calculation_.operation_name; simpl.
  destruct (OperationFactory.create_operation _) as [op'|]; [|done].
  by apply bool_decide_eq_true in Hname as ->.
Qed.

Lemma load_rows_saved (h : list Calculation) :
  Forall (fun c => name_is_registered (operation c) = true /\
                   exists r, result c = Some (Float r)) h ->
  load_rows [] (row_of_dict <$> (Calculation_.to_dict <$> h)) = h.
Proof.
  induction 1 as [|c h [Hname [r Hres]] _ IH]; [done|].
  rewrite !fmap_cons, load_rows_cons, (load_row_saved c r Hname Hres).
  by rewrite load_rows_from, IH.
Qed.

(** What the round trip does give: a store within its bound, whose
    records have a float result and an operation whose saved name is
    registered, is loaded back as it was saved. *)
Lemma save_load_registered (self : CalculationHistory) (fs fs' : filesystem)
    (filepath : string) :
  within_max_size self ->
  Forall (fun c => name_is_registered (operation c) = true /\
                   exists r, result c = Some (Float r)) (_history self) ->
  save_to_csv self fs filepath = (Return tt, fs') ->
  load_from_csv self fs' filepath = (Return tt, self).
Proof.
  unfold within_max_size. intros Hlen Hall Hsave.
  unfold save_to_csv, to_csv in Hsave.
  destruct (_history self) as [|c h] eqn:Hh; [done|].
  rewrite <- Hh in *.
  destruct (write_errors fs !! filepath); [done|].
  injection Hsave as <-.
  unfold load_from_csv, read_csv, files at 1. rewrite lookup_insert_eq.
  rewrite frame_rows_saved by (eapply Forall_impl; [exact Hall|]; by intros ? [_ ?]).
  rewrite (load_rows_saved _ Hall).
  destruct (Z.gtb_spec (Z.of_nat (length (_history self))) (_max_size self)); [lia|].
  by destruct self.
Qed.

(** C4, at a store that holds one integer division.  [to_dict] derives the
    name from the class, [intdivide], while the factory registers
    [int_divide]: the save succeeds, and the load from the same path
    succeeds too but skips the row, so that the store that held one record
    holds none. *)
Theorem save_load_loses_int_divide :
  let c := executed IntDivideOperation 7 2 3 0 in
  let h := add_calculation (__init__ 100) c in
  Calculation_.operation_name c = "intdivide" /\
  OperationFactory.create_operation "intdivide"
  = Raise (OperationError "Unknown operation: intdivide") /\
  get_count h = 1 /\
  (save_to_csv h no_files "history.csv").1 = Return tt /\
  load_from_csv h (save_to_csv h no_files "history.csv").2 "history.csv"
  = (Return tt, clear_history h) /\
  get_count (load_from_csv h (save_to_csv h no_files "history.csv").2 "history.csv").2 = 0.
Proof. repeat split; vm_compute; reflexivity. Qed.

Example registered_names :
  filter (fun op => name_is_registered op = false)
    [AddOperation; SubtractOperation; MultiplyOperation; DivideOperation;
     PowerOperation; RootOperation; ModulusOperation; IntDivideOperation;
     PercentOperation; AbsDiffOperation]
  = [IntDivideOperation; AbsDiffOperation].
Proof. vm_compute. reflexivity. Qed.

End Persistence.

(** ** Power and root *)

Section PowerAndRoot.
Context {rt : PyRuntime}.
Import Operations.

(** What the handler of [PowerOperation.execute] does catch. *)
Lemma power_wraps_overflow_and_value_error (a b : float) (e : exn) :
  pow a b = Raise e -> overflow_or_value_error e = true ->
  PowerOperation_execute a b
  = Raise (OperationError ("Power operation failed: " +:+ exn_str e)).
Proof. unfold PowerOperation_execute, try_except. by intros -> ->. Qed.

(** Every other outcome of [a ** b] is the outcome of the operation. *)
Lemma power_passes_other_outcomes (a b : float) :
  match pow a b with
  | Raise e => overflow_or_value_error e = false
  | Return _ => True
  end ->
  PowerOperation_execute a b = pow a b.
Proof.
  unfold PowerOperation_execute, try_except.
  destruct (pow a b) as [|e]; [done|]. by intros ->.
Qed.

(** Zero to a negative finite power: [ZeroDivisionError]. *)
Lemma float_pow_zero_to_negative (s : bool) (iw : float) :
  ltb iw zero = true -> is_infinity iw = false ->
  float_pow (S754_zero s) iw = Raise (Builtin ZeroDivisionError).
Proof. by destruct iw as [[]|[]| |[] m e]. Qed.

(** A negative finite base to a finite power that is not an integer: the
    complex power, and no float. *)
Lemma float_pow_negative_to_fraction (iv iw : float) :
  is_finite iv = true -> ltb iv zero = true ->
  is_finite iw = true -> eqb iw (floor iw) = false ->
  float_pow iv iw
  = match complex_pow iv iw with
    | Some (re, im) => Return (Complex re im)
    | None => Raise (Builtin OverflowError)
    end.
Proof.
  intros Hv Hneg Hw Hfrac. unfold float_pow.
  destruct iv as [[]|[]| |[] m e]; try done.
  destruct iw as [[]|[]| |[] m' e']; try done.
  all: cbn -[floor complex_pow]; change (SFeqb ?x (floor ?x)) with (eqb x (floor x));
    by rewrite Hfrac.
Qed.

(** C5, at two inputs where [a ** b] has no float value.  Zero to a
    negative power raises [ZeroDivisionError], which is not one of the two
    classes that the handler turns into an [OperationError]: it leaves the
    operation as it is.  A negative base to a fractional power is no domain
    error for [**]: the operation returns the complex number that the
    complex power gives, and fails only if that power overflows. *)
Theorem power_domain_errors_not_wrapped :
  PowerOperation_execute zero (of_Z (-1)) = Raise (Builtin ZeroDivisionError) /\
  PowerOperation_execute (of_Z (-8)) half
  = match complex_pow (of_Z (-8)) half with
    | Some (re, im) => Return (Complex re im)
    | None => Raise (OperationError ("Power operation failed: " +:+ exn_text OverflowError))
    end.
Proof.
  split; [reflexivity|].
  unfold PowerOperation_execute, pow.
  rewrite float_pow_negative_to_fraction by (vm_compute; reflexivity).
  by destruct (complex_pow _ _) as [[re im]|].
Qed.

Lemma root_zeroth (a b : float) :
  eqb b zero = true ->
  RootOperation_execute a b = Raise (OperationError "Cannot calculate 0th root").
Proof. unfold RootOperation_execute. by intros ->. Qed.

Lemma root_even_of_negative (a b m : float) :
  eqb b zero = false -> ltb a zero = true ->
  float_rem b two = Return m -> eqb m zero = true ->
  RootOperation_execute a b
  = Raise (OperationError "Cannot calculate even root of negative number").
Proof.
  unfold RootOperation_execute. intros -> -> -> Hm. simpl. by rewrite Hm.
Qed.

(** Past the two guards, the root is the power [a ** (1 / b)] under the
    handler. *)
Lemma root_takes_power (a b : float) :
  eqb b zero = false ->
  (ltb a zero = true -> exists m, float_rem b two = Return m /\ eqb m zero = false) ->
  RootOperation_execute a b
  = try_except (pow a (div one b)) overflow_or_value_error
      (fun e => Raise (OperationError ("Root operation failed: " +:+ exn_str e))).
Proof.
  unfold RootOperation_execute. intros -> Hodd.
  destruct (ltb a zero); [|done].
  destruct (Hodd eq_refl) as (m & -> & Hm). simpl. by rewrite Hm.
Qed.

(** [b % 2 == 0] on some floats: 2, 4 and -6 pass the test, 3 and 2.5 do
    not. *)
Example even_test :
  (fun b => match float_rem b two with Return m => eqb m zero | Raise _ => false end)
    <$> [of_Z 2; of_Z 4; of_Z (-6); of_Z 3; of_ratio false 5 2]
  = [true; true; true; false; false].
Proof. vm_compute. reflexivity. Qed.

(** C8, at two inputs that pass both guards of [RootOperation.execute].
    The root of index -1 of zero is [0 ** (-1)]: the [ZeroDivisionError]
    leaves the operation as it is, not as an [OperationError].  The cube
    root of -8 is [(-8) ** (1/3)], a negative base to a fractional power:
    the operation returns the complex number that the complex power gives,
    not a float, and fails only if that power overflows. *)
Theorem root_domain_errors_not_wrapped :
  RootOperation_execute zero (of_Z (-1)) = Raise (Builtin ZeroDivisionError) /\
  RootOperation_execute (of_Z (-8)) (of_Z 3)
  = match complex_pow (of_Z (-8)) third with
    | Some (re, im) => Return (Complex re im)
    | None => Raise (OperationError ("Root operation failed: " +:+ exn_text OverflowError))
    end.
Proof.
  split; [reflexivity|].
  rewrite root_takes_power;
    [|reflexivity | intros _; exists one; split; vm_compute; reflexivity].
  unfold pow. fold third.
  rewrite float_pow_negative_to_fraction by (vm_compute; reflexivity).
  by destruct (complex_pow _ _) as [[re im]|].
Qed.

End PowerAndRoot.

(** ** The calculator *)

Section PerformCalculation.
Context {rt : PyRuntime}.
Import Calculator_.

(** A validation error leaves [perform_calculation] at once. *)
Lemma perform_calculation_invalid (self : Calculator) (fs : filesystem)
    (name : string) (a b : pyobj) (now : datetime) (e : exn) :
  validate_operands self a b = Raise e ->
  perform_calculation self fs name a b now = (Raise e, self, fs).
Proof. unfold perform_calculation. by intros ->. Qed.

(** An error of the creation, of the execution or of the rounding leaves
    it after the checkpoint. *)
Lemma perform_calculation_failed (self : Calculator) (fs : filesystem)
    (name : string) (a b : pyobj) (x y : float) (now : datetime) (e : exn) :
  validate_operands self a b = Return (x, y) ->
  create_and_execute self name x y now = Raise e ->
  perform_calculation self fs name a b now = (Raise e, checkpointed self, fs).
Proof.
  unfold perform_calculation. intros -> Hexec.
  change (create_and_execute (set_caretaker self _) name x y now)
    with (create_and_execute self name x y now).
  by rewrite Hexec.
Qed.

(** There is no other way to an exception. *)
Lemma perform_calculation_raise_inv (self self' : Calculator) (fs fs' : filesystem)
    (name : string) (a b : pyobj) (now : datetime) (e : exn) :
  perform_calculation self fs name a b now = (Raise e, self', fs') ->
  (validate_operands self a b = Raise e /\ self' = self /\ fs' = fs) \/
  (exists x y, validate_operands self a b = Return (x, y) /\
               create_and_execute self name x y now = Raise e /\
               self' = checkpointed self /\ fs' = fs).
Proof.
  unfold perform_calculation.
  destruct (validate_operands self a b) as [[x y]|e0] eqn:Hv.
  - change (create_and_execute (set_caretaker self _) name x y now)
      with (create_and_execute self name x y now).
    destruct (create_and_execute self name x y now) as [[r c]|e1] eqn:Hexec.
    + destruct (notify_observers _ _ _). discriminate.
    + intros [= -> <- <-]. right. by exists x, y.
  - intros [= -> <- <-]. by left.
Qed.

(** The three kinds of error of the claim do reach one of the two
    exits. *)
Lemma validate_operands_not_a_number (self : Calculator) (a b : pyobj) :
  py_float a = Raise (Builtin ValueError) \/ py_float a = Raise (Builtin TypeError) ->
  exists msg, validate_operands self a b = Raise (ValidationError msg).
Proof.
  unfold validate_operands, validate_number, try_except.
  intros [-> | ->]; simpl; eauto.
Qed.

Lemma validate_operands_out_of_range (self : Calculator) (a b : pyobj) (x y : float) :
  py_float a = Return x -> py_float b = Return y ->
  gtb (fabs x) (max_input_value (config self)) = true ->
  exists msg, validate_operands self a b = Raise (ValidationError msg).
Proof.
  unfold validate_operands, validate_number, validate_in_range, try_except.
  intros -> -> Hgt; simpl. rewrite Hgt. simpl. eauto.
Qed.

Lemma create_and_execute_unknown (self : Calculator) (name : string) (x y : float)
    (now : datetime) :
  lower name ∉ OperationFactory.get_available_operations ->
  create_and_execute self name x y now
  = Raise (OperationError ("Unknown operation: " +:+ name)).
Proof.
  intros Hname. unfold create_and_execute.
  unfold OperationFactory.create_operation, OperationFactory._operations.
  by rewrite (not_elem_of_list_to_map_1 _ _ Hname).
Qed.

Lemma create_and_execute_divide_by_zero (self : Calculator) (x y : float)
    (now : datetime) :
  eqb y zero = true ->
  create_and_execute self "divide" x y now
  = Raise (OperationError "Cannot divide by zero").
Proof.
  intros Hy. unfold create_and_execute.
  change (OperationFactory.create_operation "divide") with (Return DivideOperation).
  simpl. unfold Calculation_.execute, Operations.execute,
    Operations.DivideOperation_execute; simpl.
  by rewrite Hy.
Qed.

(** A notification is visible in the log: every [LoggingObserver] adds one
    record, and no observer removes one. *)
Lemma notify_observers_logs (self : Calculator) (fs : filesystem) (c : Calculation) :
  length (logger (notify_observers self fs c).1)
  = (length (logger self) + length (filter (fun o => is_logging o = true) (observers self)))%nat.
Proof.
  unfold notify_observers. generalize (observers self) as obs. intros obs.
  revert self fs. induction obs as [|o obs IH]; intros self fs.
  - simpl. lia.
  - cbn [foldl]. destruct (update o self fs c) as [self' fs'] eqn:Hup. rewrite IH.
    assert (length (logger self')
            = (length (logger self) + if is_logging o then 1 else 0)%nat) as ->.
    { destruct o as [|path]; cbn [update] in Hup.
      - injection Hup as <- <-. cbn [logger set_logger].
        unfold Logger_.log_calculation, Logger_.info. by rewrite length_app.
      - destruct (_ >? _); injection Hup as <- <-; simpl; lia. }
    destruct o; [rewrite filter_cons_True by done | rewrite filter_cons_False by done];
      simpl; lia.
Qed.

(** The call that succeeds: the record is appended after the checkpoint and
    the observers are notified of it. *)
Lemma perform_calculation_done (self : Calculator) (fs : filesystem)
    (name : string) (a b : pyobj) (x y r : float) (c : Calculation) (now : datetime) :
  validate_operands self a b = Return (x, y) ->
  create_and_execute self name x y now = Return (r, c) ->
  perform_calculation self fs name a b now
  = (Return r,
     (notify_observers
        (set_history (checkpointed self)
           (CalculationHistory_.add_calculation (history self) c)) fs c).1,
     (notify_observers
        (set_history (checkpointed self)
           (CalculationHistory_.add_calculation (history self) c)) fs c).2).
Proof.
  unfold perform_calculation. intros -> Hexec.
  change (create_and_execute (set_caretaker self _) name x y now)
    with (create_and_execute self name x y now).
  rewrite Hexec. unfold checkpointed. simpl.
  by destruct (notify_observers _ _ _).
Qed.

(** C2. When [perform_calculation] raises, the exception is the one of the
    failing step (the validation, or the creation, execution or rounding),
    handed on as it is; the history store is the one before the call; no
    observer has run: the log and the files are the ones before the call,
    and so is the list of observers. *)
Theorem perform_calculation_error_frame (self self' : Calculator)
    (fs fs' : filesystem) (name : string) (a b : pyobj) (now : datetime) (e : exn) :
  perform_calculation self fs name a b now = (Raise e, self', fs') ->
  (validate_operands self a b = Raise e \/
   exists x y, validate_operands self a b = Return (x, y) /\
               create_and_execute self name x y now = Raise e) /\
  history self' = history self /\
  logger self' = logger self /\
  fs' = fs /\
  observers self' = observers self.
Proof.
  intros [(Hv & -> & ->) | (x & y & Hv & Hexec & -> & ->)]%perform_calculation_raise_inv.
  - repeat split; try done. by left.
  - repeat split; try done. right. by exists x, y.
Qed.

(** C10. When the operands pass the validation and [perform_calculation]
    raises all the same, the caretaker has taken the checkpoint: the redo
    stack is empty, the undo stack has one more memento, whose snapshot is
    the list of the records of before the call, [can_redo] is false, and
    the history store is unchanged. *)
Theorem failed_calculation_checkpoints (self self' : Calculator)
    (fs fs' : filesystem) (name : string) (a b : pyobj) (x y : float)
    (now : datetime) (e : exn) :
  validate_operands self a b = Return (x, y) ->
  perform_calculation self fs name a b now = (Raise e, self', fs') ->
  _redo_stack (caretaker self') = [] /\
  (exists m,
     _undo_stack (caretaker self') = _undo_stack (caretaker self) ++ [m] /\
     _history_snapshot m = _history (history self) /\
     CalculatorMemento_.get_snapshot m = _history (history self)) /\
  CalculatorCaretaker_.can_redo (caretaker self') = false /\
  history self' = history self.
Proof.
  intros Hv [(Hv' & _) | (x' & y' & _ & _ & -> & _)]%perform_calculation_raise_inv.
  - congruence.
  - split; [done|]. split; [|done].
    by exists (CalculatorMemento_.__init__ (_history (history self))).
Qed.

End PerformCalculation.

(** ** The claims at concrete inputs *)

(** A store with a negative bound is over it from its creation on, and an
    append does not change that; a store with the bound 0 is over it after
    the load of a file with one valid row, since [h[-0:]] is all of [h]. *)
Lemma max_size_exceeded :
  ~ within_max_size
      (CalculationHistory_.add_calculation (CalculationHistory_.__init__ (-1))
         (executed AddOperation 1 1 2 0)) /\
  ~ within_max_size
      (CalculationHistory_.load_from_csv (CalculationHistory_.__init__ 0)
         {| files := {[ "history.csv" :=
                        Table [row_of_dict (Calculation_.to_dict
                                              (executed AddOperation 1 1 2 0))] ]};
            write_errors := ∅ |}
         "history.csv").2.
Proof. split; intros Hle; vm_compute in Hle; by apply Hle. Qed.

Lemma history_within_max_size_witness :
  let R1 := executed AddOperation 1 1 2 0 in
  let R2 := executed AddOperation 2 2 4 1 in
  let R3 := executed AddOperation 3 3 6 2 in
  let full := run_ops (CalculationHistory_.__init__ 2, no_files) [OpAdd R1; OpAdd R2] in
  within_max_size
    (run_ops (CalculationHistory_.__init__ 2, no_files)
       [OpAdd R1; OpAdd R2; OpSave "history.csv"; OpAdd R3; OpLoad "history.csv";
        OpClear; OpAdd R1]).1 /\
  _history (CalculationHistory_.add_calculation full.1 R3) = [R2; R3].
Proof.
  intros R1 R2 R3 full.
  destruct (history_within_max_size 2
              [OpAdd R1; OpAdd R2; OpSave "history.csv"; OpAdd R3; OpLoad "history.csv";
               OpClear; OpAdd R1]
              no_files full.1 R3 R1 R2 R3) as (Hbound & Hevict & _).
  split.
  - apply Hbound; [lia | discriminate].
  - apply Hevict; [vm_compute; reflexivity | vm_compute; reflexivity].
Defined.

Lemma save_empty_history_fails_witness :
  let fs := {| files := {[ "history.csv" :=
                           Table [row_of_dict (Calculation_.to_dict
                                                 (executed AddOperation 1 1 2 0))] ]};
               write_errors := ∅ |} in
  let empty := CalculationHistory_.__init__ 100 in
  CalculationHistory_.save_to_csv empty fs "history.csv"
  = (Raise (HistoryError "No history to save"), fs) /\
  CalculationHistory_.get_count
    (CalculationHistory_.load_from_csv empty
       (CalculationHistory_.save_to_csv empty fs "history.csv").2 "history.csv").2 = 1.
Proof.
  intros fs empty.
  destruct (save_empty_history_fails empty empty fs "history.csv" "history.csv")
    as [Hsave Hload]; [reflexivity|].
  split; [exact Hsave|]. rewrite Hload. vm_compute. reflexivity.
Defined.

Lemma load_clears_once_file_is_read_witness :
  let bad_rows :=
    [ {| csv_operation := Some "sqrt"; csv_operand_a := Some (of_Z 9);
         csv_operand_b := Some (of_Z 2); csv_result := Some (of_Z 3);
         csv_timestamp := Some (Instant 0) |};
      {| csv_operation := Some "add"; csv_operand_a := None;
         csv_operand_b := Some (of_Z 2); csv_result := Some (of_Z 3);
         csv_timestamp := Some NaT |} ] in
  let fs := {| files := {[ "bad.csv" := Table bad_rows ]}; write_errors := ∅ |} in
  let self := CalculationHistory_.add_calculation (CalculationHistory_.__init__ 100)
                (executed AddOperation 1 1 2 0) in
  CalculationHistory_.load_from_csv self fs "missing.csv"
  = (Raise (HistoryError "History file not found: missing.csv"), self) /\
  CalculationHistory_.load_from_csv self fs "bad.csv"
  = (Return tt, CalculationHistory_.clear_history self).
Proof.
  intros bad_rows fs self.
  split.
  - destruct (load_clears_once_file_is_read self fs "missing.csv") as (Hmissing & _).
    apply Hmissing. vm_compute. reflexivity.
  - destruct (load_clears_once_file_is_read self fs "bad.csv") as (_ & _ & Hread).
    destruct (Hread bad_rows) as [_ Hinvalid]; [vm_compute; reflexivity|].
    apply Hinvalid. repeat constructor.
Defined.

Lemma perform_calculation_error_frame_witness :
  let start := Calculator_.__init__ default_config [] in
  let out := Calculator_.perform_calculation (rt := bare_runtime) start no_files
               "divide" (ObjFloat (of_Z 10)) (ObjFloat zero) (Instant 0) in
  out.1.1 = Raise (OperationError "Cannot divide by zero") /\
  history out.1.2 = history start /\
  logger out.1.2 = logger start /\
  out.2 = no_files.
Proof.
  intros start out.
  destruct (perform_calculation_error_frame (rt := bare_runtime) start out.1.2 no_files out.2
              "divide" (ObjFloat (of_Z 10)) (ObjFloat zero) (Instant 0)
              (OperationError "Cannot divide by zero"))
    as (_ & Hhistory & Hlogger & Hfs & _); [vm_compute; reflexivity|].
  split; [vm_compute; reflexivity|]. by repeat split.
Defined.

Lemma failed_calculation_checkpoints_witness :
  let start := Calculator_.__init__ default_config [] in
  let first := Calculator_.perform_calculation (rt := bare_runtime) start no_files
                 "add" (ObjFloat (of_Z 5)) (ObjFloat (of_Z 3)) (Instant 0) in
  let second := Calculator_.perform_calculation (rt := bare_runtime) first.1.2 first.2
                  "multiply" (ObjFloat (of_Z 2)) (ObjFloat (of_Z 2)) (Instant 1) in
  let before := (Calculator_.undo second.1.2).2 in
  let out := Calculator_.perform_calculation (rt := bare_runtime) before second.2
               "nope" (ObjFloat (of_Z 10)) (ObjFloat zero) (Instant 2) in
  _history (history before) = [executed AddOperation 5 3 8 0] /\
  CalculatorCaretaker_.can_redo (caretaker before) = true /\
  out.1.1 = Raise (OperationError "Unknown operation: nope") /\
  CalculatorCaretaker_.can_redo (caretaker out.1.2) = false /\
  length (_undo_stack (caretaker out.1.2)) = S (length (_undo_stack (caretaker before))) /\
  CalculatorMemento_.get_snapshot <$> last (_undo_stack (caretaker out.1.2))
  = Some [executed AddOperation 5 3 8 0] /\
  history out.1.2 = history before.
Proof.
  intros start first second before out.
  destruct (failed_calculation_checkpoints (rt := bare_runtime) before out.1.2 second.2
              out.2 "nope" (ObjFloat (of_Z 10)) (ObjFloat zero) (of_Z 10) zero (Instant 2)
              (OperationError "Unknown operation: nope"))
    as (_ & (m & Hundo & _ & Hsnapshot) & Hredo & Hhistory);
    [vm_compute; reflexivity | vm_compute; reflexivity |].
  split; [vm_compute; reflexivity|]. split; [vm_compute; reflexivity|].
  split; [vm_compute; reflexivity|]. split; [exact Hredo|].
  split; [rewrite Hundo, length_app; apply Nat.add_1_r|].
  split; [|exact Hhistory].
  rewrite Hundo, last_snoc. cbn [fmap option_fmap option_map]. rewrite Hsnapshot.
  vm_compute. reflexivity.
Defined.

(** The run of the test suite: 5 + 3 is 8, rounded to two decimals, and the
    history holds one record. *)
Example perform_add :
  let start := Calculator_.__init__ default_config [] in
  let out := Calculator_.perform_calculation (rt := bare_runtime) start no_files
               "add" (ObjFloat (of_Z 5)) (ObjFloat (of_Z 3)) (Instant 0) in
  out.1.1 = Return (of_Z 8) /\
  CalculationHistory_.get_count (history out.1.2) = 1 /\
  length (logger out.1.2) = S (length (logger start)).
Proof. repeat split; vm_compute; reflexivity. Qed.

(** The failing run of C1 through the calculator: after two calculations, an
    undo and a redo, a second undo reports success and leaves the two
    records in the history. *)
Example calculator_undo_after_redo :
  let start := Calculator_.__init__ default_config [] in
  let one := Calculator_.perform_calculation (rt := bare_runtime) start no_files
               "add" (ObjFloat (of_Z 5)) (ObjFloat (of_Z 3)) (Instant 0) in
  let two := Calculator_.perform_calculation (rt := bare_runtime) one.1.2 one.2
               "add" (ObjFloat (of_Z 10)) (ObjFloat (of_Z 5)) (Instant 1) in
  let undone1 := Calculator_.undo two.1.2 in
  let redone1 := Calculator_.redo undone1.2 in
  let undone2 := Calculator_.undo redone1.2 in
  CalculationHistory_.get_count (history two.1.2) = 2 /\
  (undone1.1 = Return tt /\ CalculationHistory_.get_count (history undone1.2) = 1) /\
  (redone1.1 = Return tt /\ CalculationHistory_.get_count (history redone1.2) = 2) /\
  (undone2.1 = Return tt /\ CalculationHistory_.get_count (history undone2.2) = 2).
Proof. repeat split; vm_compute; reflexivity. Qed.

(** The failing run of C4 through the calculator: the integer division is
    saved by the auto-save observer, and a calculator that loads the file
    gets an empty history. *)
Example int_divide_lost_after_reload :
  let start := Calculator_.__init__ default_config [] in
  let out := Calculator_.perform_calculation (rt := bare_runtime) start no_files
               "int_divide" (ObjFloat (of_Z 7)) (ObjFloat (of_Z 2)) (Instant 0) in
  let reloaded := CalculationHistory_.load_from_csv (history start) out.2
                    (history_file default_config) in
  out.1.1 = Return (of_Z 3) /\
  CalculationHistory_.get_count (history out.1.2) = 1 /\
  reloaded.1 = Return tt /\
  CalculationHistory_.get_count reloaded.2 = 0.
Proof. repeat split; vm_compute; reflexivity. Qed.

(** * Further properties *)

(** ** The caretaker, operation by operation *)

Section CaretakerOperations.
Import CalculatorCaretaker_.

Lemma can_undo_snoc (us rs : list CalculatorMemento) (m : CalculatorMemento) :
  can_undo {| _undo_stack := us ++ [m]; _redo_stack := rs |} = true.
Proof.
  unfold can_undo. apply bool_decide_eq_true. simpl. rewrite length_app. simpl. lia.
Qed.

Lemma caretaker_undo_cases (c : CalculatorCaretaker) :
  (_undo_stack c = [] /\ can_undo c = false) \/
  (exists us m, _undo_stack c = us ++ [m] /\ can_undo c = true).
Proof.
  destruct c as [us rs]. destruct us as [|m us _] using rev_ind.
  - by left.
  - right. exists us, m. split; [done|]. apply can_undo_snoc.
Qed.

Lemma caretaker_redo_cases (c : CalculatorCaretaker) :
  (_redo_stack c = [] /\ can_redo c = false) \/
  (exists rs m, _redo_stack c = rs ++ [m] /\ can_redo c = true).
Proof.
  destruct c as [us rs]. destruct rs as [|m rs _] using rev_ind.
  - by left.
  - right. exists rs, m. split; [done|].
    unfold can_redo. apply bool_decide_eq_true. simpl. rewrite length_app. simpl. lia.
Qed.

(** X1. [can_undo] and [can_redo] tell what [undo] and [redo] will do: when
    they are false the call raises its [HistoryError] and the caretaker is
    as before, when they are true the call returns a history. *)
Theorem undo_redo_follow_can (c : CalculatorCaretaker) (current : list Calculation) :
  (if can_undo c
   then exists h, (undo c current).1 = Return h
   else undo c current = (Raise (HistoryError "Nothing to undo"), c)) /\
  (if can_redo c
   then exists h, (redo c).1 = Return h
   else redo c = (Raise (HistoryError "Nothing to redo"), c)).
Proof.
  split.
  - destruct (caretaker_undo_cases c) as [[Hus ->] | (us & m & Hus & ->)];
      unfold undo; rewrite Hus.
    + done.
    + rewrite list_pop_snoc. by eexists.
  - destruct (caretaker_redo_cases c) as [[Hrs ->] | (rs & m & Hrs & ->)];
      unfold redo; rewrite Hrs.
    + done.
    + rewrite list_pop_snoc. by eexists.
Qed.

(** X2. A checkpoint is what the next undo gives back: after
    [save_state(H)], [undo] returns [H] whatever the current history, puts
    the undo stack back to what it was before the checkpoint, and leaves
    the current history as the only thing to redo. *)
Theorem undo_returns_last_checkpoint (c : CalculatorCaretaker)
    (H current : list Calculation) :
  undo (save_state c H) current
  = (Return H,
     {| _undo_stack := _undo_stack c;
        _redo_stack := [CalculatorMemento_.__init__ current] |}).
Proof. apply (undo_top _ [] (CalculatorMemento_.__init__ H)). Qed.

(** X3. A redo that follows an undo returns the history that was current at
    the undo, and the redo stack is again the one of before the undo; the
    undo stack has kept its size, with that history on top. *)
Theorem redo_returns_undone_history (c c' : CalculatorCaretaker)
    (current h : list Calculation) :
  undo c current = (Return h, c') ->
  exists c'',
    redo c' = (Return current, c'') /\
    _redo_stack c'' = _redo_stack c /\
    _undo_stack c'' = _undo_stack c' ++ [CalculatorMemento_.__init__ current] /\
    length (_undo_stack c'') = length (_undo_stack c).
Proof.
  destruct (caretaker_undo_cases c) as [[Hus _] | (us & m & Hus & _)];
    unfold undo; rewrite Hus; [done|].
  rewrite list_pop_snoc. intros [= <- <-].
  eexists. split; [apply redo_top|]. simpl. rewrite !length_app. done.
Qed.

(** X4. An undo or a redo that succeeds moves one memento from one stack to
    the other: the two stacks together hold as many mementos as before. *)
Theorem undo_redo_move_one_memento (c : CalculatorCaretaker) (current : list Calculation) :
  (can_undo c = true ->
   length (_undo_stack c) = S (length (_undo_stack (undo c current).2)) /\
   length (_redo_stack (undo c current).2) = S (length (_redo_stack c))) /\
  (can_redo c = true ->
   length (_redo_stack c) = S (length (_redo_stack (redo c).2)) /\
   length (_undo_stack (redo c).2) = S (length (_undo_stack c))).
Proof.
  split; intros Hcan.
  - destruct (caretaker_undo_cases c) as [[_ Hno] | (us & m & Hus & _)]; [congruence|].
    unfold undo. rewrite Hus, list_pop_snoc. simpl. rewrite !length_app. simpl. lia.
  - destruct (caretaker_redo_cases c) as [[_ Hno] | (rs & m & Hrs & _)]; [congruence|].
    unfold redo. rewrite Hrs, list_pop_snoc. simpl. rewrite !length_app. simpl. lia.
Qed.

End CaretakerOperations.

(** ** The history store, operation by operation *)

Section HistoryOperations.
Import CalculationHistory_.

Lemma add_all_max_size (cs : list Calculation) (h : CalculationHistory) :
  _max_size (add_all h cs) = _max_size h.
Proof.
  revert h. induction cs as [|c cs IH]; intros h; [done|].
  simpl. by rewrite IH, add_calculation_max_size.
Qed.

Lemma add_all_snoc (h : CalculationHistory) (cs : list Calculation) (c : Calculation) :
  add_all h (cs ++ [c]) = add_calculation (add_all h cs) c.
Proof. unfold add_all. by rewrite foldl_app. Qed.

(** X5. The count after an append: one more, up to the bound.  For a store
    within a bound [max_size >= 0], [get_count] after [add_calculation] is
    the smaller of the count plus one and [max_size]. *)
Theorem add_calculation_count (h : CalculationHistory) (c : Calculation) :
  0 <= _max_size h -> within_max_size h ->
  get_count (add_calculation h c) = Z.min (get_count h + 1) (_max_size h).
Proof.
  unfold within_max_size, get_count. intros Hmax Hlen.
  rewrite add_calculation_history, length_app. simpl.
  destruct (Z.gtb_spec (Z.of_nat (length (_history h) + 1)) (_max_size h)).
  - rewrite length_drop, length_app. simpl. lia.
  - rewrite length_app. simpl. lia.
Qed.

(** X6. A store keeps the most recent records.  After the appends of any
    list of calculations to an empty store with bound [n >= 0], the records
    are the last [n] of the list, in the order of the appends. *)
Theorem add_all_keeps_most_recent (n : nat) (cs : list Calculation) :
  _history (add_all (__init__ (Z.of_nat n)) cs) = last_n n cs.
Proof.
  unfold last_n. induction cs as [|c cs IH] using rev_ind; [done|].
  rewrite add_all_snoc, add_calculation_history, add_all_max_size, IH.
  cbn [__init__ _max_size].
  rewrite !length_app, length_drop. cbn [length].
  destruct (Z.gtb_spec (Z.of_nat (length cs - (length cs - n) + 1)) (Z.of_nat n)).
  - rewrite <- drop_app_le by lia. rewrite drop_drop. f_equal. lia.
  - rewrite drop_app_le by lia. do 2 f_equal. lia.
Qed.

(** X7. The last calculation is the one just appended, as soon as the bound
    is at least 1; the empty store has none. *)
Theorem get_last_calculation_after_add (h : CalculationHistory) (c : Calculation)
    (max_size : Z) :
  (1 <= _max_size h -> get_last_calculation (add_calculation h c) = Some c) /\
  get_last_calculation (__init__ max_size) = None.
Proof.
  split; [|done]. intros Hmax.
  unfold get_last_calculation. rewrite add_calculation_history, length_app. simpl.
  destruct (Z.gtb_spec (Z.of_nat (length (_history h) + 1)) (_max_size h)).
  - destruct (_history h) as [|x l]; simpl in *; [lia|].
    rewrite drop_0. apply last_snoc.
  - apply last_snoc.
Qed.

End HistoryOperations.

(** ** Files, operation by operation *)

Section FileOperations.
Import CalculationHistory_.

Lemma load_rows_omap (rows : list csv_row) : load_rows [] rows = omap load_row rows.
Proof.
  induction rows as [|row rows IH]; [done|].
  rewrite load_rows_cons. simpl. destruct (load_row row) as [c|]; [|done].
  by rewrite load_rows_from, IH.
Qed.

Lemma slice_from_last_n {A} (l : list A) (n : Z) :
  0 < n -> n < Z.of_nat (length l) -> slice_from l (- n) = last_n (Z.to_nat n) l.
Proof.
  intros Hpos Hlt. unfold slice_from, last_n.
  destruct (Z.ltb_spec (- n) 0); [|lia]. f_equal. lia.
Qed.

(** X8. What a load leaves in the store: the calculations of the valid
    rows of the file, in the order of the file, and of these the last
    [max_size] when there are more (for a bound of at least 1); what the
    store held before plays no part. *)
Theorem load_keeps_valid_rows (self : CalculationHistory) (fs : filesystem)
    (filepath : string) (rows : list csv_row) :
  1 <= _max_size self ->
  files fs !! filepath = Some (Table rows) ->
  load_from_csv self fs filepath
  = (Return tt,
     set_history self (last_n (Z.to_nat (_max_size self)) (omap load_row rows))).
Proof.
  intros Hmax Hfile. unfold load_from_csv, read_csv. rewrite Hfile, load_rows_omap.
  destruct (Z.gtb_spec (Z.of_nat (length (omap load_row rows))) (_max_size self)).
  - by rewrite slice_from_last_n by lia.
  - unfold last_n. replace (_ - _)%nat with 0%nat by lia. by rewrite drop_0.
Qed.

Lemma save_to_csv_written (self : CalculationHistory) (fs : filesystem)
    (filepath : string) :
  _history self <> [] -> write_errors fs !! filepath = None ->
  save_to_csv self fs filepath
  = (Return tt,
     {| files := <[filepath := Table (rows_of (_history self))]> (files fs);
        write_errors := write_errors fs |}).
Proof.
  intros Hne Hw. unfold save_to_csv, to_csv.
  destruct (_history self) as [|c h] eqn:Hh; [done|]. by rewrite Hw.
Qed.

Lemma save_to_csv_refused (self : CalculationHistory) (fs : filesystem)
    (filepath msg : string) :
  _history self <> [] -> write_errors fs !! filepath = Some msg ->
  save_to_csv self fs filepath
  = (Raise (HistoryError ("Failed to save history to CSV: " +:+ msg)), fs).
Proof.
  intros Hne Hw. unfold save_to_csv, to_csv.
  destruct (_history self) as [|c h] eqn:Hh; [done|]. by rewrite Hw.
Qed.

Lemma save_to_csv_write_errors (self : CalculationHistory) (fs : filesystem)
    (filepath : string) :
  write_errors (save_to_csv self fs filepath).2 = write_errors fs.
Proof.
  unfold save_to_csv, to_csv. destruct (_history self); [done|].
  by destruct (write_errors fs !! filepath).
Qed.

Lemma rows_of_floats (h : list Calculation) :
  Forall (fun c => is_complex (result c) = false) h ->
  rows_of h = row_of_dict <$> (Calculation_.to_dict <$> h).
Proof. intros Hall. by apply frame_rows_floats, Forall_fmap. Qed.

Lemma rows_of_complex (h : list Calculation) :
  Exists (fun c => is_complex (result c) = true) h ->
  Forall (fun row => csv_result row = None \/ csv_result row = Some nan) (rows_of h).
Proof.
  intros Hex. unfold rows_of, frame_rows.
  assert (existsb (fun d => is_complex (dict_result d)) (Calculation_.to_dict <$> h)
          = true) as ->.
  { apply existsb_exists. apply Exists_exists in Hex as (c & Hin & Hc).
    exists (Calculation_.to_dict c). split; [|done].
    apply list_elem_of_In. by apply list_elem_of_fmap_2. }
  apply Forall_fmap, Forall_fmap, Forall_forall. intros c _. cbn.
  unfold result_cell. destruct (is_na (result c)); [by right|].
  destruct (result c) as [[r|re im]|]; by left.
Qed.

(** X9. A save replaces the file by one row per record of the store, in
    order, and touches no other file; when the path cannot be written it
    raises a [HistoryError] and every file is as before.  The rows are
    those of the records taken one by one as long as no record holds a
    complex result; with one complex result in the store, the result of
    every row is written as text that [float] rejects, or as an empty cell
    that reads back as NaN. *)
Theorem save_writes_the_records (self : CalculationHistory) (fs : filesystem)
    (filepath : string) :
  _history self <> [] ->
  match write_errors fs !! filepath with
  | None =>
      (save_to_csv self fs filepath).1 = Return tt /\
      read_csv (save_to_csv self fs filepath).2 filepath = inr (rows_of (_history self)) /\
      (forall other, other <> filepath ->
         read_csv (save_to_csv self fs filepath).2 other = read_csv fs other) /\
      write_errors (save_to_csv self fs filepath).2 = write_errors fs
  | Some msg =>
      save_to_csv self fs filepath
      = (Raise (HistoryError ("Failed to save history to CSV: " +:+ msg)), fs)
  end /\
  length (rows_of (_history self)) = length (_history self) /\
  (Forall (fun c => is_complex (result c) = false) (_history self) ->
   rows_of (_history self) = row_of_dict <$> (Calculation_.to_dict <$> _history self)) /\
  (Exists (fun c => is_complex (result c) = true) (_history self) ->
   Forall (fun row => csv_result row = None \/ csv_result row = Some nan)
          (rows_of (_history self))).
Proof.
  intros Hne. split; [|split; [|split]].
  - destruct (write_errors fs !! filepath) as [msg|] eqn:Hw.
    + by apply save_to_csv_refused.
    + rewrite save_to_csv_written by done. cbn [fst snd]. split; [done|].
      unfold read_csv. cbn [files].
      split; [by rewrite lookup_insert_eq|]. split; [|done].
      intros other Hother. by rewrite lookup_insert_ne.
  - unfold rows_of, frame_rows. by rewrite !length_fmap.
  - apply rows_of_floats.
  - apply rows_of_complex.
Qed.

Lemma load_row_saved_cases (c : Calculation) (r : float) :
  result c = Some (Float r) ->
  load_row (row_of_dict (Calculation_.to_dict c))
  = if decide (reloadable c) then Some c else None.
Proof.
  destruct c as [op a b res t]. simpl. intros ->.
  unfold load_row, row_of_dict, row_of. cbn -[result_cell].
  rewrite result_cell_float.
  unfold reloadable. by destruct op; vm_compute.
Qed.

Lemma omap_load_row_saved (h : list Calculation) :
  Forall (fun c => exists r, result c = Some (Float r)) h ->
  omap load_row (rows_of h) = filter reloadable h.
Proof.
  intros Hall. unfold rows_of. rewrite (frame_rows_saved h Hall).
  induction Hall as [|c h [r Hr] _ IH]; [done|].
  rewrite !fmap_cons.
  change (omap load_row (?x :: ?l))
    with (match load_row x with Some y => y :: omap load_row l | None => omap load_row l end).
  rewrite IH, (load_row_saved_cases c r Hr).
  destruct (decide (reloadable c)).
  - by rewrite filter_cons_True.
  - by rewrite filter_cons_False.
Qed.

(** X10. What a save followed by a load gives back.  For a store within
    its bound whose records all hold a float result, the load from the path
    of a successful save leaves the records of every operation but
    [int_divide] and [abs_diff], unchanged and in order; the records of
    these two operations are dropped. *)
Theorem save_load_keeps_reloadable (self : CalculationHistory) (fs fs' : filesystem)
    (filepath : string) :
  within_max_size self ->
  Forall (fun c => exists r, result c = Some (Float r)) (_history self) ->
  save_to_csv self fs filepath = (Return tt, fs') ->
  load_from_csv self fs' filepath
  = (Return tt, set_history self (filter reloadable (_history self))).
Proof.
  unfold within_max_size. intros Hlen Hall Hsave.
  pose proof (omap_load_row_saved _ Hall) as Hreload.
  unfold save_to_csv, to_csv in Hsave.
  destruct (_history self) as [|c h] eqn:Hh; [done|]. rewrite <- Hh in *.
  destruct (write_errors fs !! filepath); [done|].
  injection Hsave as <-.
  unfold load_from_csv, read_csv, files at 1. rewrite lookup_insert_eq.
  fold (rows_of (_history self)). rewrite load_rows_omap, Hreload.
  pose proof (length_filter reloadable (_history self)).
  destruct (Z.gtb_spec (Z.of_nat (length (filter reloadable (_history self))))
              (_max_size self)); [lia|done].
Qed.

End FileOperations.

(** ** The operations *)

Section OperationProperties.
Context {rt : PyRuntime}.
Import Operations.

Lemma float_rem_returns (a b : float) :
  eqb b zero = false -> exists m, float_rem a b = Return m.
Proof. unfold float_rem. intros ->. by eexists. Qed.

Lemma float_floor_div_returns (a b : float) :
  eqb b zero = false -> exists q, float_floor_div a b = Return q.
Proof. unfold float_floor_div. intros ->. by eexists. Qed.

(** X11. The eight operations other than power and root fail in one case
    only.  The four that divide raise their [OperationError] when the
    second operand is a zero (of either sign), whatever the first; in every
    other case each of the eight returns a float. *)
Theorem arithmetic_fails_on_zero_divisor_only (op : Operation) (a b : float) :
  match op with
  | PowerOperation | RootOperation => True
  | _ =>
      match zero_divisor_error op with
      | Some msg =>
          if eqb b zero then execute op a b = Raise (OperationError msg)
          else exists x, execute op a b = Return (Float x)
      | None => exists x, execute op a b = Return (Float x)
      end
  end.
Proof.
  destruct op; try done; simpl;
    unfold DivideOperation_execute, ModulusOperation_execute,
      IntDivideOperation_execute, PercentOperation_execute;
    try (by eexists); destruct (eqb b zero) eqn:Hb; try done; try (by eexists).
  - destruct (float_rem_returns a b Hb) as [m ->]. by eexists.
  - destruct (float_floor_div_returns a b Hb) as [q ->]. by eexists.
Qed.

Lemma fabs_binary_round (s s' : bool) (m : positive) (e : Z) :
  SFabs (binary_round prec emax s m e) = SFabs (binary_round prec emax s' m e).
Proof.
  unfold binary_round, binary_round_aux.
  destruct (shl_align _ _ _) as [mz ez].
  destruct (shr_fexp _ _ _ _ _) as [mrs e1].
  destruct (shr_fexp _ _ _ _ _) as [mrs' e2].
  destruct (shr_m mrs'); [done| |done]. by destruct (_ <=? _).
Qed.

Lemma fabs_binary_normalize_opp (z e : Z) (sz sz' : bool) :
  SFabs (binary_normalize prec emax (- z) e sz) = SFabs (binary_normalize prec emax z e sz').
Proof. destruct z; simpl; [done| |]; apply fabs_binary_round. Qed.

Lemma fabs_sub_comm (a b : float) : fabs (sub a b) = fabs (sub b a).
Proof.
  unfold fabs, sub.
  destruct a as [[]|[]| |sa ma ea], b as [[]|[]| |sb mb eb]; try done.
  unfold SFsub. rewrite (Z.min_comm eb ea).
  rewrite <- (fabs_binary_normalize_opp _ _ false false). f_equal. f_equal. lia.
Qed.

Lemma add_comm (a b : float) : add a b = add b a.
Proof.
  unfold add.
  destruct a as [[]|[]| |sa ma ea], b as [[]|[]| |sb mb eb]; try done.
  unfold SFadd. rewrite (Z.min_comm eb ea). f_equal. lia.
Qed.

Lemma mul_comm (a b : float) : mul a b = mul b a.
Proof.
  unfold mul.
  destruct a as [[]|[]| |[] ma ea], b as [[]|[]| |[] mb eb]; try done.
  all: unfold SFmul; by rewrite (Pos.mul_comm mb ma), (Z.add_comm eb ea).
Qed.

(** X12. Addition, multiplication and absolute difference do not depend on
    the order of the operands, and the absolute difference is never
    negative. *)
Theorem symmetric_operations (a b : float) :
  AddOperation_execute a b = AddOperation_execute b a /\
  MultiplyOperation_execute a b = MultiplyOperation_execute b a /\
  AbsDiffOperation_execute a b = AbsDiffOperation_execute b a /\
  exists d, AbsDiffOperation_execute a b = Return (Float d) /\ ltb d zero = false.
Proof.
  unfold AddOperation_execute, MultiplyOperation_execute, AbsDiffOperation_execute.
  rewrite (add_comm a b), (mul_comm a b), (fabs_sub_comm a b).
  repeat split. eexists. split; [done|]. by destruct (sub b a) as [[]|[]| |[] m e].
Qed.

(** X13. The exceptions of the power.  Whatever the C library does, the
    power raises an [OperationError], or the [ZeroDivisionError] of zero to
    a negative finite power, and nothing else; and that [ZeroDivisionError]
    is raised for every such pair of operands. *)
Theorem power_exceptions (a b : float) :
  match PowerOperation_execute a b with
  | Return _ | Raise (OperationError _) => zero_to_negative a b = false
  | Raise (Builtin e) => e = ZeroDivisionError /\ zero_to_negative a b = true
  | Raise _ => False
  end.
Proof.
  unfold PowerOperation_execute, pow, float_pow, zero_to_negative, try_except.
  destruct a as [[]|[]| |[] ma ea], b as [[]|[]| |[] mb eb]; try done.
  all: repeat first
       [ progress cbn -[libm_pow complex_pow floor is_odd_integer one]
       | match goal with
         | |- context [complex_pow ?x ?y] => destruct (complex_pow x y) as [[? ?]|]
         | |- context [libm_pow ?x ?y] => destruct (libm_pow x y) as [? []]
         | |- context [if ?c then _ else _] => destruct c
         end ]; done.
Qed.

End OperationProperties.

(** ** The factory and the validators *)

Section FactoryAndValidators.
Context {rt : PyRuntime}.

Lemma operations_items_NoDup : NoDup (OperationFactory._operations_items.*1).
Proof. apply (bool_decide_eq_true_1 _). vm_compute. reflexivity. Qed.

Lemma create_operation_Return (name : string) (op : Operation) :
  OperationFactory.create_operation name = Return op <->
  (lower name, op) ∈ OperationFactory._operations_items.
Proof.
  unfold OperationFactory.create_operation, OperationFactory._operations.
  pose proof operations_items_NoDup as Hnodup.
  destruct (list_to_map _ !! lower name) as [op'|] eqn:Hlookup; split.
  - intros [= <-]. by apply elem_of_list_to_map_2.
  - intros Hin. apply (elem_of_list_to_map_1 (M := gmap string)) in Hin; [|done].
    congruence.
  - done.
  - intros Hin. apply (elem_of_list_to_map_1 (M := gmap string)) in Hin; [|done].
    congruence.
Qed.

(** X14. The factory knows the ten names, whatever their case, and nothing
    else.  [create_operation] returns an operation exactly when the name in
    lower case is a key of the table, and then the operation of that key;
    any other name raises the [OperationError] of an unknown operation;
    and each of the ten operations has a name that creates it. *)
Theorem create_operation_by_name (name : string) (op : Operation) :
  (OperationFactory.create_operation name = Return op <->
   (lower name, op) ∈ OperationFactory._operations_items) /\
  (lower name ∉ OperationFactory.get_available_operations ->
   OperationFactory.create_operation name
   = Raise (OperationError ("Unknown operation: " +:+ name))) /\
  (exists key, key ∈ OperationFactory.get_available_operations /\
               OperationFactory.create_operation key = Return op).
Proof.
  split; [apply create_operation_Return|]. split; [apply create_operation_unknown|].
  destruct op;
    [ exists "add" | exists "subtract" | exists "multiply" | exists "divide"
    | exists "power" | exists "root" | exists "modulus" | exists "int_divide"
    | exists "percent" | exists "abs_diff" ];
    (split; [apply (bool_decide_eq_true_1 _); vm_compute; reflexivity | reflexivity]).
Qed.

(** X15. The range check looks at the magnitude only: a value and its
    opposite get the same verdict; and a NaN passes it whatever the
    maximum. *)
Theorem validate_in_range_magnitude (value max_value : float) (param_name : string) :
  validate_in_range (opp value) max_value param_name
  = validate_in_range value max_value param_name /\
  validate_in_range nan max_value param_name = Return tt.
Proof.
  unfold validate_in_range. split; [|by destruct max_value].
  replace (fabs (opp value)) with (fabs value); [done|]. by destruct value.
Qed.

(** X16. The two checks on the sign agree except on the negative numbers:
    [validate_positive] rejects a value exactly when [validate_not_zero]
    rejects it (a zero of either sign) or the value is below zero.  A NaN
    passes both. *)
Theorem validate_positive_and_not_zero (value : float) (param_name : string) :
  raises (validate_positive value param_name)
  = raises (validate_not_zero value param_name) || ltb value zero /\
  validate_positive nan param_name = Return tt /\
  validate_not_zero nan param_name = Return tt.
Proof.
  unfold validate_positive, validate_not_zero.
  split; [|done]. by destruct value as [[]|[]| |[] m e].
Qed.

End FactoryAndValidators.

(** ** The calculator, call by call *)

Section CalculatorCalls.
Context {rt : PyRuntime}.
Import Calculator_.

Lemma update_fold_frame (obs : list CalculationObserver) (self : Calculator)
    (fs : filesystem) (c : Calculation) :
  let after := foldl (fun '(self, fs) observer => update observer self fs c)
                     (self, fs) obs in
  history after.1 = history self /\
  caretaker after.1 = caretaker self /\
  config after.1 = config self /\
  observers after.1 = observers self.
Proof.
  revert self fs. induction obs as [|o obs IH]; intros self fs; [done|].
  cbn [foldl]. destruct (update o self fs c) as [self' fs'] eqn:Hup.
  destruct (IH self' fs') as (-> & -> & -> & ->).
  destruct o as [|path]; cbn [update] in Hup.
  - by injection Hup as <- <-.
  - by destruct (_ >? _); injection Hup as <- <-.
Qed.

(** The observers write to the log and to the files only. *)
Lemma notify_observers_frame (self : Calculator) (fs : filesystem) (c : Calculation) :
  history (notify_observers self fs c).1 = history self /\
  caretaker (notify_observers self fs c).1 = caretaker self /\
  config (notify_observers self fs c).1 = config self /\
  observers (notify_observers self fs c).1 = observers self.
Proof. apply update_fold_frame. Qed.

Lemma create_and_execute_Return (self : Calculator) (name : string) (x y r : float)
    (now : datetime) (c : Calculation) :
  create_and_execute self name x y now = Return (r, c) ->
  exists op,
    OperationFactory.create_operation name = Return op /\
    c = {| operation := op; operand_a := x; operand_b := y;
           result := Some (Float r); timestamp := now |}.
Proof.
  unfold create_and_execute.
  destruct (OperationFactory.create_operation name) as [op|]; [|done]. simpl.
  unfold Calculation_.execute. simpl.
  destruct (Operations.execute op x y) as [v|]; [|done]. simpl.
  destruct (round v _) as [r'|]; [|done]. simpl.
  intros [= <- <-]. by exists op.
Qed.

Lemma perform_calculation_return_inv (self self' : Calculator) (fs fs' : filesystem)
    (name : string) (a b : pyobj) (now : datetime) (r : float) :
  perform_calculation self fs name a b now = (Return r, self', fs') ->
  exists x y c,
    validate_operands self a b = Return (x, y) /\
    create_and_execute self name x y now = Return (r, c) /\
    (self', fs')
    = notify_observers
        (set_history (checkpointed self)
           (CalculationHistory_.add_calculation (history self) c)) fs c.
Proof.
  unfold perform_calculation.
  destruct (validate_operands self a b) as [[x y]|] eqn:Hv; [|done].
  change (create_and_execute (set_caretaker self _) name x y now)
    with (create_and_execute self name x y now).
  destruct (create_and_execute self name x y now) as [[r' c]|] eqn:Hexec; [|done].
  unfold checkpointed. cbn [history set_caretaker].
  destruct (notify_observers _ _ _) as [s f] eqn:Hn.
  intros [= <- <- <-]. by exists x, y, c.
Qed.

Lemma perform_calculation_return_state (self self' : Calculator)
    (fs fs' : filesystem) (name : string) (a b : pyobj) (now : datetime) (r : float) :
  perform_calculation self fs name a b now = (Return r, self', fs') ->
  exists op x y,
    OperationFactory.create_operation name = Return op /\
    validate_operands self a b = Return (x, y) /\
    history self'
    = CalculationHistory_.add_calculation (history self)
        {| operation := op; operand_a := x; operand_b := y;
           result := Some (Float r); timestamp := now |} /\
    caretaker self'
    = CalculatorCaretaker_.save_state (caretaker self) (_history (history self)) /\
    config self' = config self /\
    observers self' = observers self.
Proof.
  intros (x & y & c & Hv & Hexec & Hn)%perform_calculation_return_inv.
  destruct (create_and_execute_Return _ _ _ _ _ _ _ Hexec) as (op & Hop & ->).
  exists op, x, y.
  pose proof (notify_observers_frame
                (set_history (checkpointed self)
                   (CalculationHistory_.add_calculation (history self)
                      {| operation := op; operand_a := x; operand_b := y;
                         result := Some (Float r); timestamp := now |})) fs
                {| operation := op; operand_a := x; operand_b := y;
                   result := Some (Float r); timestamp := now |}) as Hframe.
  rewrite <- Hn in Hframe. cbn [fst] in Hframe.
  destruct Hframe as (-> & -> & -> & ->). done.
Qed.

(** X17. A call that returns has recorded what it returns.  The history of
    after the call is the one of before with one record appended by
    [add_calculation]; the record holds the operation of the name, the two
    validated operands, the instant of the call and, as its result, the
    float that the call returns.  The caretaker has taken one checkpoint,
    of the history of before the call; the configuration and the observers
    are unchanged. *)
Theorem perform_calculation_records_result (self self' : Calculator)
    (fs fs' : filesystem) (name : string) (a b : pyobj) (now : datetime) (r : float) :
  perform_calculation self fs name a b now = (Return r, self', fs') ->
  exists op x y,
    OperationFactory.create_operation name = Return op /\
    validate_operands self a b = Return (x, y) /\
    history self'
    = CalculationHistory_.add_calculation (history self)
        {| operation := op; operand_a := x; operand_b := y;
           result := Some (Float r); timestamp := now |} /\
    caretaker self'
    = CalculatorCaretaker_.save_state (caretaker self) (_history (history self)) /\
    config self' = config self /\
    observers self' = observers self.
Proof. apply perform_calculation_return_state. Qed.

Lemma calculator_undo_top (self : Calculator) (us : list CalculatorMemento)
    (m : CalculatorMemento) :
  _undo_stack (caretaker self) = us ++ [m] ->
  undo self
  = (Return tt,
     {| config := config self;
        logger := Logger_.info (logger self) "Undo performed";
        history := CalculationHistory_.set_history (history self) (_history_snapshot m);
        caretaker :=
          {| _undo_stack := us;
             _redo_stack := _redo_stack (caretaker self)
                              ++ [CalculatorMemento_.__init__ (_history (history self))] |};
        observers := observers self |}).
Proof.
  intros Hus. unfold undo. destruct (caretaker self) as [us' rs] eqn:Hc.
  simpl in Hus. subst us'. unfold CalculationHistory_.get_history.
  by rewrite undo_top.
Qed.

Lemma calculator_redo_top (self : Calculator) (rs : list CalculatorMemento)
    (m : CalculatorMemento) :
  _redo_stack (caretaker self) = rs ++ [m] ->
  redo self
  = (Return tt,
     {| config := config self;
        logger := Logger_.info (logger self) "Redo performed";
        history := CalculationHistory_.set_history (history self) (_history_snapshot m);
        caretaker :=
          {| _undo_stack := _undo_stack (caretaker self) ++ [m]; _redo_stack := rs |};
        observers := observers self |}).
Proof.
  intros Hrs. unfold redo. destruct (caretaker self) as [us rs'] eqn:Hc.
  simpl in Hrs. subst rs'. by rewrite redo_top.
Qed.

(** X18. Undo takes back a calculation and redo brings it back.  After a
    call of [perform_calculation] that returns, [undo] succeeds and the
    records of the history are those of before the call; the [redo] that
    follows succeeds and the records are those of after the call. *)
Theorem undo_then_redo_after_calculation (self self' : Calculator)
    (fs fs' : filesystem) (name : string) (a b : pyobj) (now : datetime) (r : float) :
  perform_calculation self fs name a b now = (Return r, self', fs') ->
  (undo self').1 = Return tt /\
  _history (history (undo self').2) = _history (history self) /\
  (redo (undo self').2).1 = Return tt /\
  _history (history (redo (undo self').2).2) = _history (history self').
Proof.
  intros (op & x & y & _ & _ & _ & Hc & _)%perform_calculation_return_state.
  rewrite (calculator_undo_top self' (_undo_stack (caretaker self))
             (CalculatorMemento_.__init__ (_history (history self))))
    by (by rewrite Hc).
  cbn [fst snd history]. split; [done|]. split; [done|].
  erewrite calculator_redo_top; [|by rewrite Hc]. done.
Qed.

End CalculatorCalls.

Section CalculatorEffects.
Context {rt : PyRuntime}.
Import Calculator_.

Lemma set_history_same (h : CalculationHistory) :
  CalculationHistory_.set_history h (_history h) = h.
Proof. by destruct h. Qed.

(** X19. The checkpoint of a failed call is a step that undoes nothing.
    After a call that passed the validation and then raised, [undo]
    succeeds, and the history and the undo stack are those of before the
    failed call; the one [redo] that this allows succeeds too and changes
    nothing of the history either. *)
Theorem undo_after_failed_calculation (self self' : Calculator)
    (fs fs' : filesystem) (name : string) (a b : pyobj) (x y : float)
    (now : datetime) (e : exn) :
  validate_operands self a b = Return (x, y) ->
  perform_calculation self fs name a b now = (Raise e, self', fs') ->
  (undo self').1 = Return tt /\
  history (undo self').2 = history self /\
  _undo_stack (caretaker (undo self').2) = _undo_stack (caretaker self) /\
  (redo (undo self').2).1 = Return tt /\
  history (redo (undo self').2).2 = history self.
Proof.
  intros Hv [(Hv' & _) | (x' & y' & _ & _ & -> & _)]%perform_calculation_raise_inv;
    [congruence|].
  rewrite (calculator_undo_top (checkpointed self) (_undo_stack (caretaker self))
             (CalculatorMemento_.__init__ (_history (history self)))) by done.
  cbn [fst snd history caretaker checkpointed set_caretaker _undo_stack].
  unfold CalculatorMemento_.__init__, deepcopy. cbn [_history_snapshot].
  rewrite set_history_same. split; [done|]. split; [done|]. split; [done|].
  erewrite calculator_redo_top; [|done].
  cbn [fst snd history _history_snapshot]. by rewrite set_history_same.
Qed.

Lemma add_calculation_nonempty (h : CalculationHistory) (c : Calculation) :
  1 <= _max_size h -> _history (CalculationHistory_.add_calculation h c) <> [].
Proof.
  intros Hmax. rewrite add_calculation_history, length_app. simpl.
  destruct (Z.gtb_spec (Z.of_nat (length (_history h) + 1)) (_max_size h)).
  - destruct (_history h) as [|x l]; simpl in *; [lia|]. rewrite drop_0.
    by destruct l.
  - by destruct (_history h).
Qed.

Lemma notify_observers_auto_save (self : Calculator) (fs : filesystem)
    (c : Calculation) (path : string) :
  observers self = [LoggingObserver; AutoSaveObserver path] ->
  _history (history self) <> [] ->
  (notify_observers self fs c).2
  = (CalculationHistory_.save_to_csv (history self) fs path).2.
Proof.
  intros Hobs Hne. unfold notify_observers. rewrite Hobs. cbn [foldl update].
  cbn [history set_logger]. unfold CalculationHistory_.get_count.
  destruct (_history (history self)) as [|c0 l] eqn:Hh; [done|].
  destruct (Z.gtb_spec (Z.of_nat (length (c0 :: l))) 0); [done|]. simpl in *. lia.
Qed.

Lemma notify_observers_one_record (self : Calculator) (fs : filesystem)
    (c : Calculation) (path : string) :
  observers self = [LoggingObserver; AutoSaveObserver path] ->
  exists message,
    logger (notify_observers self fs c).1 = Logger_.info (logger self) message.
Proof.
  intros Hobs. unfold notify_observers. rewrite Hobs. cbn [foldl update].
  cbn [history set_logger]. unfold Logger_.log_calculation.
  eexists. by destruct (_ >? _).
Qed.

(** X20. The auto-save keeps the history file up to date and cannot break
    a calculation.  For a calculator with the observers of its creation
    with [auto_save] on, a bound of at least 1 and a history file that is
    not the log file, after a call of [perform_calculation] that returns:
    the log has one more record, of level INFO; when the path of the
    history file can be written, that file holds the rows of the new
    history and every file other than it and the log file is as before;
    when it cannot, the call returns all the same and every file other
    than the log file is as before. *)
Theorem auto_save_after_calculation (self self' : Calculator) (fs fs' : filesystem)
    (name path : string) (a b : pyobj) (now : datetime) (r : float) :
  observers self = [LoggingObserver; AutoSaveObserver path] ->
  1 <= _max_size (history self) ->
  path <> log_file ->
  perform_calculation self fs name a b now = (Return r, self', fs') ->
  (exists message, logger self' = Logger_.info (logger self) message) /\
  match write_errors fs !! path with
  | None =>
      read_csv fs' path = inr (rows_of (_history (history self'))) /\
      forall other, other <> path -> other <> log_file ->
                    read_csv fs' other = read_csv fs other
  | Some _ =>
      forall other, other <> log_file -> read_csv fs' other = read_csv fs other
  end.
Proof.
  intros Hobs Hmax Hlog Hperform.
  destruct (perform_calculation_return_state _ _ _ _ _ _ _ _ _ Hperform)
    as (op & x & y & _ & _ & Hh & _).
  destruct (perform_calculation_return_inv _ _ _ _ _ _ _ _ _ Hperform)
    as (x' & y' & c & _ & Hexec & Hn).
  pose proof (f_equal fst Hn) as Hself. cbn [fst] in Hself.
  split.
  { rewrite Hself.
    apply (notify_observers_one_record
             (set_history (checkpointed self)
                (CalculationHistory_.add_calculation (history self) c)) fs c path Hobs). }
  assert (fs' = (CalculationHistory_.save_to_csv (history self') fs path).2) as ->.
  { pose proof (f_equal snd Hn) as Hfs. cbn [snd] in Hfs. rewrite Hfs.
    destruct (notify_observers_frame
                (set_history (checkpointed self)
                   (CalculationHistory_.add_calculation (history self) c)) fs c)
      as (Hhist & _).
    rewrite <- Hself in Hhist. rewrite Hhist.
    apply notify_observers_auto_save; [done|].
    by apply add_calculation_nonempty. }
  assert (_history (history self') <> []) as Hne.
  { rewrite Hh. by apply add_calculation_nonempty. }
  destruct (write_errors fs !! path) as [msg|] eqn:Hw.
  - by rewrite (save_to_csv_refused _ _ _ msg).
  - rewrite save_to_csv_written by done. unfold read_csv. cbn [snd files].
    split; [by rewrite lookup_insert_eq|].
    intros other Hother _. by rewrite lookup_insert_ne.
Qed.

(** X21. A clear cannot be undone.  After [clear_history] the history is
    empty with its bound unchanged, and both [undo] and [redo] raise their
    [HistoryError]; the configuration and the observers are unchanged. *)
Theorem clear_history_forgets (self : Calculator) :
  let cleared := clear_history self in
  _history (history cleared) = [] /\
  _max_size (history cleared) = _max_size (history self) /\
  (undo cleared).1 = Raise (HistoryError "Nothing to undo") /\
  (redo cleared).1 = Raise (HistoryError "Nothing to redo") /\
  config cleared = config self /\
  observers cleared = observers self.
Proof. done. Qed.

End CalculatorEffects.


(** ** The session *)

Section Session.
Context {rt : PyRuntime} {tx : PyStr}.
Import Repl AsciiText.

Lemma calculator_within_init (cfg : CalculatorConfig) (log : Logger) :
  0 <= max_history_size cfg ->
  calculator_within (max_history_size cfg) (Calculator_.__init__ cfg log).
Proof.
  intros Hmax. unfold Calculator_.__init__.
  destruct (auto_save cfg); (split; [done|]); (split; [|by split; constructor]);
    unfold within_max_size; simpl; lia.
Qed.

Lemma calculator_within_set_logger (n : Z) (self : Calculator) (l : Logger) :
  calculator_within n self -> calculator_within n (Calculator_.set_logger self l).
Proof. done. Qed.

Lemma calculator_within_checkpointed (n : Z) (self : Calculator) :
  calculator_within n self -> calculator_within n (checkpointed self).
Proof.
  intros (Hmax & Hh & Hus & Hrs). split; [done|]. split; [done|].
  split; [|constructor]. cbn. apply Forall_app. split; [done|].
  constructor; [|constructor]. unfold within_max_size in Hh. cbn. by rewrite <- Hmax.
Qed.

Lemma calculator_within_perform (n : Z) (self : Calculator) (fs : filesystem)
    (name : string) (a b : pyobj) (now : datetime) :
  0 <= n -> calculator_within n self ->
  calculator_within n (Calculator_.perform_calculation self fs name a b now).1.2.
Proof.
  intros Hn Hin.
  destruct (Calculator_.perform_calculation self fs name a b now) as [[[r|e] self'] fs']
    eqn:Hperform; cbn [fst snd].
  - destruct (perform_calculation_return_state _ _ _ _ _ _ _ _ _ Hperform)
      as (op & x & y & _ & _ & Hh & Hc & _).
    destruct (calculator_within_checkpointed n self Hin) as (_ & _ & Hus & Hrs).
    destruct Hin as (Hmax & Hwithin & _ & _).
    unfold calculator_within. rewrite Hh, Hc, add_calculation_max_size.
    split; [done|]. split; [|done].
    apply add_calculation_within; [lia|done].
  - apply perform_calculation_raise_inv in Hperform
      as [(_ & -> & _) | (x & y & _ & _ & -> & _)]; [done|].
    by apply calculator_within_checkpointed.
Qed.

Lemma calculator_within_undo (n : Z) (self : Calculator) :
  calculator_within n self -> calculator_within n (Calculator_.undo self).2.
Proof.
  intros (Hmax & Hh & Hus & Hrs).
  destruct (caretaker_undo_cases (caretaker self)) as [[Hnil _] | (us & m & Hsnoc & _)].
  - unfold Calculator_.undo, CalculatorCaretaker_.undo. by rewrite Hnil.
  - rewrite (calculator_undo_top self us m Hsnoc). cbn [snd].
    rewrite Hsnoc in Hus. apply Forall_app in Hus as [Hus Hm].
    rewrite Forall_singleton in Hm.
    split; [done|]. split; [unfold within_max_size; cbn; by rewrite Hmax|].
    split; [done|]. cbn. apply Forall_app. split; [done|].
    constructor; [|constructor]. unfold within_max_size in Hh. cbn. by rewrite <- Hmax.
Qed.

Lemma calculator_within_redo (n : Z) (self : Calculator) :
  calculator_within n self -> calculator_within n (Calculator_.redo self).2.
Proof.
  intros (Hmax & Hh & Hus & Hrs).
  destruct (caretaker_redo_cases (caretaker self)) as [[Hnil _] | (rs & m & Hsnoc & _)].
  - unfold Calculator_.redo, CalculatorCaretaker_.redo. by rewrite Hnil.
  - rewrite (calculator_redo_top self rs m Hsnoc). cbn [snd].
    rewrite Hsnoc in Hrs. apply Forall_app in Hrs as [Hrs Hm].
    pose proof Hm as Hm'. rewrite Forall_singleton in Hm'.
    split; [done|]. split; [unfold within_max_size; cbn; by rewrite Hmax|].
    split; [|done]. cbn. apply Forall_app. by split.
Qed.

Lemma calculator_within_clear (n : Z) (self : Calculator) :
  0 <= n -> calculator_within n self ->
  calculator_within n (Calculator_.clear_history self).
Proof.
  intros Hn (Hmax & _). split; [done|].
  split; [unfold within_max_size; cbn; lia|]. by split; constructor.
Qed.

Lemma calculator_within_load (n : Z) (self : Calculator) (fs : filesystem)
    (path : string) :
  1 <= n -> calculator_within n self ->
  calculator_within n
    (Calculator_.set_history self
       (CalculationHistory_.load_from_csv (history self) fs path).2).
Proof.
  intros Hn (Hmax & Hh & Hus & Hrs).
  split; [cbn; by rewrite load_from_csv_max_size|].
  split; [|done]. cbn. apply load_from_csv_within; [lia|done].
Qed.

(** The invariant of the turns of the loop. *)
Lemma repl_turn_within (n : Z) (s : session) (event : input_event) (now : datetime) :
  1 <= n -> calculator_within n (calculator s) ->
  calculator_within n (calculator (repl_turn s event now).2).
Proof.
  intros Hn Hin. destruct event as [text| |]; [|done|done].
  unfold repl_turn. destruct (String.eqb _ EmptyString); [done|].
  destruct (str_split _) as [|command parts]; [done|].
  repeat (destruct (String.eqb command _); [try done|]).
  - by apply calculator_within_clear; [lia|].
  - unfold undo_command.
    pose proof (calculator_within_undo n (calculator s) Hin) as Hundo.
    by destruct (Calculator_.undo (calculator s)) as [[|] c].
  - unfold redo_command.
    pose proof (calculator_within_redo n (calculator s) Hin) as Hredo.
    by destruct (Calculator_.redo (calculator s)) as [[|] c].
  - unfold save_history. by destruct (CalculationHistory_.save_to_csv _ _ _) as [[|] fs].
  - unfold load_history.
    pose proof (calculator_within_load n (calculator s) (disk s)
                  (history_file (config (calculator s))) Hn Hin) as Hload.
    by destruct (CalculationHistory_.load_from_csv _ _ _) as [[|] h].
  - destruct (bool_decide _); [|done].
    unfold arithmetic_command.
    destruct parts as [|n1 [|n2 [|]]]; try done.
    pose proof (calculator_within_perform n (calculator s) (disk s) command
                  (ObjStr n1) (ObjStr n2) now ltac:(lia) Hin) as Hperform.
    destruct (Calculator_.perform_calculation _ _ _ _ _ _) as [[[r|e] c] fs];
      cbn [fst snd] in Hperform; [done|].
    by destruct (operation_or_validation_error e).
Qed.

Lemma repl_turns_within (n : Z) (events : list (input_event * datetime)) (s : session) :
  1 <= n -> calculator_within n (calculator s) ->
  calculator_within n (calculator (repl_turns s events).2).
Proof.
  intros Hn. revert s. induction events as [|[event now] events IH]; intros s Hin; [done|].
  cbn [repl_turns].
  pose proof (repl_turn_within n s event now Hn Hin) as Hturn.
  destruct (repl_turn s event now) as [[|] s']; [by apply IH|done].
Qed.

(** X22. The bound holds throughout a session.  For a configuration with
    [max_history_size >= 1], whatever the user types (commands, operands,
    interrupts), at every point where the loop stops or waits the history
    holds at most [max_history_size] records, and so does every snapshot
    that an undo or a redo could restore. *)
Theorem session_within_max_size (cfg : CalculatorConfig) (log : Logger) (fs : filesystem)
    (events : list (input_event * datetime)) :
  1 <= max_history_size cfg ->
  calculator_within (max_history_size cfg) (calculator (main cfg log fs events).2).
Proof.
  intros Hmax. unfold main, repl.
  apply repl_turns_within; [done|]. cbn.
  apply (calculator_within_set_logger _ (Calculator_.__init__ cfg log)).
  apply calculator_within_init. lia.
Qed.

(** *** What a session keeps *)

Lemma update_fold_logger (obs : list CalculationObserver) (self : Calculator)
    (fs : filesystem) (c : Calculation) :
  logger self `prefix_of`
  logger (foldl (fun '(self, fs) observer => Calculator_.update observer self fs c)
                (self, fs) obs).1.
Proof.
  revert self fs. induction obs as [|o obs IH]; intros self fs; [done|].
  cbn [foldl]. destruct (Calculator_.update o self fs c) as [self' fs'] eqn:Hup.
  transitivity (logger self'); [|apply IH].
  destruct o as [|path]; cbn [Calculator_.update] in Hup.
  - injection Hup as <- <-. by apply prefix_app_r.
  - by destruct (_ >? _); injection Hup as <- <-.
Qed.

Lemma notify_observers_logger (self : Calculator) (fs : filesystem) (c : Calculation) :
  logger self `prefix_of` logger (Calculator_.notify_observers self fs c).1.
Proof. apply update_fold_logger. Qed.

Lemma perform_calculation_logger (self : Calculator) (fs : filesystem)
    (name : string) (a b : pyobj) (now : datetime) :
  logger self `prefix_of`
  logger (Calculator_.perform_calculation self fs name a b now).1.2.
Proof.
  destruct (Calculator_.perform_calculation self fs name a b now) as [[[r|e] self'] fs']
    eqn:Hperform; cbn [fst snd].
  - apply perform_calculation_return_inv in Hperform as (x & y & c & _ & _ & Hn).
    pose proof (notify_observers_logger
                  (Calculator_.set_history (checkpointed self)
                     (CalculationHistory_.add_calculation (history self) c)) fs c)
      as Hlog.
    by rewrite <- Hn in Hlog.
  - by apply perform_calculation_raise_inv in Hperform
      as [(_ & -> & _) | (x & y & _ & _ & -> & _)].
Qed.

Lemma calculator_undo_logger (self : Calculator) :
  logger self `prefix_of` logger (Calculator_.undo self).2.
Proof.
  unfold Calculator_.undo.
  destruct (CalculatorCaretaker_.undo _ _) as [[h|e] c]; [|done].
  by apply prefix_app_r.
Qed.

Lemma calculator_redo_logger (self : Calculator) :
  logger self `prefix_of` logger (Calculator_.redo self).2.
Proof.
  unfold Calculator_.redo.
  destruct (CalculatorCaretaker_.redo _) as [[h|e] c]; [|done].
  by apply prefix_app_r.
Qed.

Lemma repl_turn_grows (s : session) (event : input_event) (now : datetime) :
  screen s `prefix_of` screen (repl_turn s event now).2 /\
  logger (calculator s) `prefix_of` logger (calculator (repl_turn s event now).2).
Proof.
  destruct event as [text| |]; cbn [repl_turn];
    [|grows..].
  destruct (String.eqb _ EmptyString); [done|].
  destruct (str_split _) as [|command parts]; [grows|].
  repeat (destruct (String.eqb command _);
          [try (grows)|]).
  - unfold undo_command.
    pose proof (calculator_undo_logger (calculator s)) as Hundo.
    destruct (Calculator_.undo (calculator s)) as [[|] c];
      grows.
  - unfold redo_command.
    pose proof (calculator_redo_logger (calculator s)) as Hredo.
    destruct (Calculator_.redo (calculator s)) as [[|] c];
      grows.
  - unfold save_history.
    destruct (CalculationHistory_.save_to_csv _ _ _) as [[|] fs];
      grows.
  - unfold load_history.
    destruct (CalculationHistory_.load_from_csv _ _ _) as [[|] h];
      grows.
  - destruct (bool_decide _); [|grows].
    unfold arithmetic_command.
    destruct parts as [|n1 [|n2 [|]]];
      try (grows).
    pose proof (perform_calculation_logger (calculator s) (disk s) command
                  (ObjStr n1) (ObjStr n2) now) as Hperform.
    destruct (Calculator_.perform_calculation _ _ _ _ _ _) as [[[r|e] c] fs];
      cbn [fst snd] in Hperform; [grows|].
    destruct (operation_or_validation_error e);
      grows.
Qed.

(** X23. A session only adds to the screen and to the log.  Whatever the
    user types, what was printed and what was logged before a run of the
    loop is still there after it, in the same order, at the head of what is
    printed and logged then: no command erases or rewrites a line. *)
Theorem session_screen_and_log_grow (s : session)
    (events : list (input_event * datetime)) :
  screen s `prefix_of` screen (repl s events).2 /\
  logger (calculator s) `prefix_of` logger (calculator (repl s events).2).
Proof.
  unfold repl.
  assert (forall s, screen s `prefix_of` screen (repl_turns s events).2 /\
                    logger (calculator s)
                      `prefix_of` logger (calculator (repl_turns s events).2)) as Hturns.
  { clear s. induction events as [|[event now] events IH]; intros s; [done|].
    cbn [repl_turns].
    destruct (repl_turn_grows s event now) as [Hscreen Hlog].
    destruct (repl_turn s event now) as [[|] s']; [|done].
    destruct (IH s') as [Hscreen' Hlog']. split; by etransitivity. }
  destruct (Hturns (log_info (print s "Calculator REPL - Type 'help' for available commands")
                      "REPL started")) as [Hscreen Hlog].
  split; (etransitivity; [|eassumption]); cbn; by apply prefix_app_r.
Qed.

(** *** The words of a line *)

Lemma split_chars_word (cs : list ascii) (c : ascii) (word : list ascii) :
  split_chars cs (c :: word) <> [].
Proof.
  revert c word. induction cs as [|c' cs IH]; intros c word; [done|].
  cbn [split_chars]. destruct (is_space c'); [done|apply IH].
Qed.

Lemma lstrip_chars_head (cs : list ascii) :
  match lstrip_chars cs with [] => True | c :: _ => is_space c = false end.
Proof.
  induction cs as [|c cs IH]; [done|]. cbn [lstrip_chars].
  by destruct (is_space c) eqn:Hc.
Qed.

Lemma lstrip_chars_suffix (cs : list ascii) : exists k, cs = k ++ lstrip_chars cs.
Proof.
  induction cs as [|c cs [k IH]]; [by exists []|]. cbn [lstrip_chars].
  destruct (is_space c); [|by exists []].
  exists (c :: k). cbn. by rewrite <- IH.
Qed.

(** What [strip] leaves starts with a character that is no space. *)
Lemma strip_head (text : string) :
  match strip text with
  | EmptyString => True
  | String c _ => is_space c = false
  end.
Proof.
  unfold strip.
  pose proof (lstrip_chars_head (list_ascii_of_string text)) as Hhead.
  destruct (lstrip_chars_suffix (rev (lstrip_chars (list_ascii_of_string text))))
    as [k Hk].
  apply (f_equal (@rev ascii)) in Hk. rewrite rev_involutive, rev_app_distr in Hk.
  destruct (rev (lstrip_chars (rev _))) as [|c r]; [done|].
  rewrite Hk in Hhead. exact Hhead.
Qed.

Lemma is_space_lower_ascii (c : ascii) : is_space (lower_ascii c) = is_space c.
Proof. by destruct c as [[] [] [] [] [] [] [] []]. Qed.

(** An ASCII line that is not blank has a first word. *)
Lemma split_stripped (text : string) :
  split (lower (strip text)) = [] -> lower (strip text) = EmptyString.
Proof.
  pose proof (strip_head text) as Hhead.
  destruct (strip text) as [|c r]; [done|]. cbn [lower]. unfold split.
  cbn [list_ascii_of_string split_chars]. rewrite is_space_lower_ascii, Hhead.
  intros []%split_chars_word.
Qed.

(** [strip] and [lower] keep a text in ASCII. *)
Lemma is_ascii_lstrip_chars (cs : list ascii) :
  forallb (fun c => (nat_of_ascii c <? 128)%nat) cs = true ->
  forallb (fun c => (nat_of_ascii c <? 128)%nat) (lstrip_chars cs) = true.
Proof.
  induction cs as [|c cs IH]; [done|]. cbn [lstrip_chars].
  destruct (is_space c); [|done]. cbn [forallb]. intros [_ Hcs]%andb_prop. by apply IH.
Qed.

Lemma is_ascii_rev (cs : list ascii) :
  forallb (fun c => (nat_of_ascii c <? 128)%nat) cs = true ->
  forallb (fun c => (nat_of_ascii c <? 128)%nat) (rev cs) = true.
Proof.
  rewrite !forallb_forall. intros Hcs c Hc. apply Hcs. by apply in_rev.
Qed.

Lemma is_ascii_strip (text : string) : is_ascii text = true -> is_ascii (strip text) = true.
Proof.
  unfold is_ascii, strip. intros Htext.
  rewrite list_ascii_of_string_of_list_ascii.
  by apply is_ascii_rev, is_ascii_lstrip_chars, is_ascii_rev, is_ascii_lstrip_chars.
Qed.

Lemma lower_ascii_is_ascii (c : ascii) :
  (nat_of_ascii c <? 128)%nat = true -> (nat_of_ascii (lower_ascii c) <? 128)%nat = true.
Proof. by destruct c as [[] [] [] [] [] [] [] []]. Qed.

Lemma is_ascii_lower (text : string) : is_ascii text = true -> is_ascii (lower text) = true.
Proof.
  unfold is_ascii. induction text as [|c text IH]; [done|].
  cbn [lower list_ascii_of_string forallb]. intros [Hc Htext]%andb_prop.
  by rewrite lower_ascii_is_ascii, IH.
Qed.

(** On an ASCII line the methods of the interpreter are those written out
    above. *)
Lemma user_input_ascii (text : string) :
  is_ascii text = true ->
  str_lower (str_strip text) = lower (strip text) /\
  str_split (str_lower (str_strip text)) = split (lower (strip text)).
Proof.
  intros Htext. rewrite (str_strip_ascii text Htext).
  rewrite (str_lower_ascii _ (is_ascii_strip text Htext)).
  split; [done|]. apply str_split_ascii. by apply is_ascii_lower, is_ascii_strip.
Qed.

Lemma first_word_ascii (text : string) :
  is_ascii text = true -> first_word text = head (split (lower (strip text))).
Proof.
  intros [Hinput Hsplit]%user_input_ascii. unfold first_word. rewrite Hsplit, Hinput.
  by destruct (String.eqb_spec (lower (strip text)) EmptyString) as [->|].
Qed.

(** The three ways of a line through the head of the loop: taken for
    empty, without a first word, or with one. *)
Lemma first_word_cases (text : string) :
  (first_word text = None /\
   String.eqb (str_lower (str_strip text)) EmptyString = true) \/
  (first_word text = None /\
   String.eqb (str_lower (str_strip text)) EmptyString = false /\
   str_split (str_lower (str_strip text)) = []) \/
  (exists command parts,
     first_word text = Some command /\
     String.eqb (str_lower (str_strip text)) EmptyString = false /\
     str_split (str_lower (str_strip text)) = command :: parts).
Proof.
  unfold first_word.
  destruct (String.eqb (str_lower (str_strip text)) EmptyString); [by left|].
  destruct (str_split (str_lower (str_strip text))) as [|command parts];
    [by right; left|].
  right. right. by exists command, parts.
Qed.

(** X24. The loop ends on [exit] and on nothing else.  A turn ends the loop
    exactly when the event is a line that is not taken for empty and whose
    first word, after [strip] and [lower], is [exit], whatever follows that
    word; an interrupt, the end of the input, an error of any kind and
    every other command let it go on.  Hence a run over a list of events
    has ended exactly when one of them is such a line.  This holds for
    every text, with the methods of [str] as the interpreter has them. *)
Theorem loop_ends_on_exit_only (s : session) (events : list (input_event * datetime)) :
  (forall event now,
     (repl_turn s event now).1 = false
     <-> exists text, event = Line text /\ first_word text = Some "exit") /\
  ((repl s events).1 = true
   <-> Exists (fun e => exists text, e.1 = Line text /\ first_word text = Some "exit")
              events).
Proof.
  assert (forall s event now,
            (repl_turn s event now).1 = false
            <-> exists text, event = Line text /\ first_word text = Some "exit") as Hturn.
  { clear. intros s event now. destruct event as [text| |]; cbn [repl_turn];
      [|by split; [|intros (? & ? & ?)]..].
    destruct (first_word_cases text)
      as [[Hnone ->] | [(Hnone & -> & ->) | (command & parts & Hsome & -> & ->)]].
    - split; [done|]. intros (? & [= <-] & ?). congruence.
    - split; [done|]. intros (? & [= <-] & ?). congruence.
    - destruct (String.eqb_spec command "exit") as [->|Hne].
      + split; [|done]. intros _. by exists text.
      + split; [|intros (? & [= <-] & ?); congruence]. intros Hfalse. exfalso.
        revert Hfalse. repeat (destruct (String.eqb command _); [done|]).
        destruct (bool_decide _); [|done].
        by destruct (arithmetic_command _ _ _ _) as [[e|] s']. }
  split; [apply Hturn|]. unfold repl.
  generalize (log_info (print s "Calculator REPL - Type 'help' for available commands")
                "REPL started").
  clear s. induction events as [|[event now] events IH]; intros s.
  - cbn. split; [done|]. by intros ?%Exists_nil.
  - cbn [repl_turns]. rewrite Exists_cons. cbn [fst].
    specialize (Hturn s event now).
    destruct (repl_turn s event now) as [[|] s']; cbn [fst] in Hturn.
    + rewrite IH. split; [by right|]. intros [Hexit|]; [|done].
      by apply Hturn in Hexit.
    + split; [|done]. intros _. left. by apply Hturn.
Qed.

(** X25. An ASCII line without a word is ignored, every other ASCII line is
    answered.  On a line of ASCII characters the first word is the one
    that [split] gives for the line stripped and in lower case.  When the
    line is empty or holds white space only there is none, and the turn
    leaves the session as it is: nothing is printed, nothing is logged,
    and the loop goes on ([parts[0]] is never reached with an empty
    list).  When the line has a first word, whatever it is, the turn
    prints at least one more text. *)
Theorem line_ignored_or_answered (s : session) (text : string) (now : datetime) :
  is_ascii text = true ->
  first_word text = head (split (lower (strip text))) /\
  match first_word text with
  | None => repl_turn s (Line text) now = (true, s)
  | Some _ =>
      (length (screen s) < length (screen (repl_turn s (Line text) now).2))%nat
  end.
Proof.
  intros Htext. split; [by apply first_word_ascii|].
  destruct (user_input_ascii text Htext) as [Hinput Hsplit].
  cbn [repl_turn].
  destruct (first_word_cases text)
    as [[-> ->] | [(_ & Hfalse & Hnil) | (command & parts & -> & -> & ->)]]; [done| |].
  { rewrite Hsplit in Hnil. apply split_stripped in Hnil.
    rewrite Hinput, Hnil in Hfalse. discriminate. }
  repeat (destruct (String.eqb command _); [try printed|]).
  - unfold undo_command. destruct (Calculator_.undo (calculator s)) as [[|] c]; printed.
  - unfold redo_command. destruct (Calculator_.redo (calculator s)) as [[|] c]; printed.
  - unfold save_history.
    destruct (CalculationHistory_.save_to_csv _ _ _) as [[|] fs]; printed.
  - unfold load_history.
    destruct (CalculationHistory_.load_from_csv _ _ _) as [[|] h]; printed.
  - destruct (bool_decide _); [|printed].
    unfold arithmetic_command.
    destruct parts as [|n1 [|n2 [|]]]; try printed.
    destruct (Calculator_.perform_calculation _ _ _ _ _ _) as [[[r|e] c] fs];
      [printed|].
    destruct (operation_or_validation_error e); printed.
Qed.

Lemma update_fold_disk (obs : list CalculationObserver) (self : Calculator)
    (fs : filesystem) (c : Calculation) :
  (forall path, AutoSaveObserver path ∉ obs) ->
  (foldl (fun '(self, fs) observer => Calculator_.update observer self fs c)
         (self, fs) obs).2 = fs.
Proof.
  revert self fs. induction obs as [|o obs IH]; intros self fs Hobs; [done|].
  cbn [foldl]. destruct o as [|path].
  - cbn [Calculator_.update]. apply IH. intros path Hin. apply (Hobs path). by right.
  - destruct (Hobs path). by left.
Qed.

Lemma perform_calculation_disk (self : Calculator) (fs : filesystem)
    (name : string) (a b : pyobj) (now : datetime) :
  (forall path, AutoSaveObserver path ∉ observers self) ->
  (Calculator_.perform_calculation self fs name a b now).2 = fs.
Proof.
  intros Hobs.
  destruct (Calculator_.perform_calculation self fs name a b now) as [[[r|e] self'] fs']
    eqn:Hperform; cbn [snd].
  - apply perform_calculation_return_inv in Hperform as (x & y & c & _ & _ & Hn).
    apply (f_equal snd) in Hn. cbn [snd] in Hn. rewrite Hn.
    by apply update_fold_disk.
  - by apply perform_calculation_raise_inv in Hperform
      as [(_ & _ & ->) | (x & y & _ & _ & _ & ->)].
Qed.

Lemma repl_turn_disk (s : session) (text : string) (now : datetime) :
  first_word text <> Some "save" ->
  (forall path, AutoSaveObserver path ∉ observers (calculator s)) \/
  (forall command, first_word text = Some command ->
                   command ∉ OperationFactory.get_available_operations) ->
  disk (repl_turn s (Line text) now).2 = disk s.
Proof.
  intros Hsave Hauto. cbn [repl_turn].
  destruct (first_word_cases text)
    as [[_ ->] | [(_ & -> & ->) | (command & parts & Hword & -> & ->)]]; [done..|].
  rewrite Hword in Hsave, Hauto.
  repeat match goal with
         | |- context [String.eqb command ?x] =>
             destruct (String.eqb_spec command x); [try done|]
         end.
  - unfold undo_command. by destruct (Calculator_.undo (calculator s)) as [[|] c].
  - unfold redo_command. by destruct (Calculator_.redo (calculator s)) as [[|] c].
  - congruence.
  - unfold load_history. by destruct (CalculationHistory_.load_from_csv _ _ _) as [[|] h].
  - destruct (bool_decide_reflect (command ∈ OperationFactory.get_available_operations))
      as [Hop|]; [|done].
    destruct Hauto as [Hobs | Hnop]; [|by destruct (Hnop command)].
    unfold arithmetic_command.
    destruct parts as [|number1 [|number2 [|]]]; try done.
    pose proof (perform_calculation_disk (calculator s) (disk s) command
                  (ObjStr number1) (ObjStr number2) now Hobs) as Hperform.
    destruct (Calculator_.perform_calculation _ _ _ _ _ _) as [[[r|e] c] fs];
      cbn [snd] in Hperform; [done|].
    by destruct (operation_or_validation_error e).
Qed.

(** X26. Apart from the log file, the files are written by [save] and by
    the auto-save only.  A turn on a line whose first word is not [save]
    leaves every file other than the log file as it is, provided no
    auto-save observer is registered or the first word is no name of an
    operation: [load], [undo], [redo], [clear], [history], [help], [exit],
    unknown commands and, without the auto-save, the calculations write to
    the log file at most.  This holds for every text, with the methods of
    [str] as the interpreter has them. *)
Theorem files_written_by_save_and_auto_save_only (s : session) (text : string)
    (now : datetime) :
  first_word text <> Some "save" ->
  (forall path, AutoSaveObserver path ∉ observers (calculator s)) \/
  (forall command, first_word text = Some command ->
                   command ∉ OperationFactory.get_available_operations) ->
  forall path, path <> log_file ->
    read_csv (disk (repl_turn s (Line text) now).2) path = read_csv (disk s) path.
Proof.
  intros Hsave Hauto path _. by rewrite repl_turn_disk.
Qed.

End Session.

(** ** Instances *)

Lemma redo_returns_undone_history_witness :
  let R1 := executed AddOperation 1 1 2 0 in
  let R2 := executed AddOperation 2 2 4 1 in
  let c := CalculatorCaretaker_.save_state
             (CalculatorCaretaker_.save_state CalculatorCaretaker_.__init__ []) [R1] in
  (CalculatorCaretaker_.redo (CalculatorCaretaker_.undo c [R1; R2]).2).1
  = Return [R1; R2].
Proof.
  intros R1 R2 c.
  destruct (redo_returns_undone_history c (CalculatorCaretaker_.undo c [R1; R2]).2
              [R1; R2] [R1]) as (c'' & Hredo & _); [vm_compute; reflexivity|].
  by rewrite Hredo.
Defined.

Lemma undo_redo_move_one_memento_witness :
  let R1 := executed AddOperation 1 1 2 0 in
  let c := CalculatorCaretaker_.save_state
             (CalculatorCaretaker_.save_state CalculatorCaretaker_.__init__ []) [R1] in
  let c' := (CalculatorCaretaker_.undo c [R1]).2 in
  length (_undo_stack c') = 1%nat /\
  length (_redo_stack (CalculatorCaretaker_.redo c').2) = 0%nat.
Proof.
  intros R1 c c'. split.
  - destruct (undo_redo_move_one_memento c [R1]) as [Hundo _].
    destruct Hundo as [Hlen _]; [vm_compute; reflexivity|].
    apply Nat.succ_inj. symmetry. exact Hlen.
  - destruct (undo_redo_move_one_memento c' []) as [_ Hredo].
    destruct Hredo as [Hlen _]; [vm_compute; reflexivity|].
    apply Nat.succ_inj. symmetry. exact Hlen.
Defined.

Lemma add_calculation_count_witness :
  let R1 := executed AddOperation 1 1 2 0 in
  let R2 := executed AddOperation 2 2 4 1 in
  let full := CalculationHistory_.add_calculation (CalculationHistory_.__init__ 1) R1 in
  CalculationHistory_.get_count (CalculationHistory_.add_calculation full R2) = 1.
Proof.
  intros R1 R2 full.
  rewrite (add_calculation_count full R2); [reflexivity | vm_compute; discriminate |].
  unfold within_max_size. vm_compute. discriminate.
Defined.

Lemma get_last_calculation_after_add_witness :
  let R1 := executed AddOperation 1 1 2 0 in
  let R2 := executed AddOperation 2 2 4 1 in
  let full := CalculationHistory_.add_calculation (CalculationHistory_.__init__ 1) R1 in
  CalculationHistory_.get_last_calculation (CalculationHistory_.add_calculation full R2)
  = Some R2.
Proof.
  intros R1 R2 full.
  destruct (get_last_calculation_after_add full R2 1) as [Hlast _].
  apply Hlast. vm_compute. discriminate.
Defined.

Lemma load_keeps_valid_rows_witness :
  let R1 := executed AddOperation 1 1 2 0 in
  let R2 := executed MultiplyOperation 2 2 4 1 in
  let unknown := {| csv_operation := Some "sqrt"; csv_operand_a := Some (of_Z 9);
                    csv_operand_b := Some (of_Z 2); csv_result := Some (of_Z 3);
                    csv_timestamp := Some (Instant 0) |} in
  let rows := [row_of_dict (Calculation_.to_dict R1); unknown;
               row_of_dict (Calculation_.to_dict R2)] in
  let fs := {| files := {[ "history.csv" := Table rows ]}; write_errors := ∅ |} in
  CalculationHistory_.load_from_csv (CalculationHistory_.__init__ 1) fs "history.csv"
  = (Return tt, CalculationHistory_.set_history (CalculationHistory_.__init__ 1) [R2]).
Proof.
  intros R1 R2 unknown rows fs.
  rewrite (load_keeps_valid_rows (CalculationHistory_.__init__ 1) fs "history.csv" rows);
    [| vm_compute; discriminate | vm_compute; reflexivity].
  vm_compute. reflexivity.
Defined.

Lemma save_writes_the_records_witness :
  let R1 := executed AddOperation 1 1 2 0 in
  let R2 := {| operation := PowerOperation; operand_a := of_Z (-8); operand_b := half;
               result := Some (Complex zero (of_Z 3)); timestamp := Instant 1 |} in
  let self := add_all (CalculationHistory_.__init__ 2) [R1; R2] in
  read_csv (CalculationHistory_.save_to_csv self no_files "history.csv").2 "history.csv"
  = inr (rows_of [R1; R2]) /\
  csv_result <$> rows_of [R1; R2] = [None; None] /\
  rows_of [R1] = [row_of_dict (Calculation_.to_dict R1)].
Proof.
  intros R1 R2 self.
  destruct (save_writes_the_records self no_files "history.csv") as [Hsave _];
    [discriminate|].
  destruct Hsave as (_ & Hread & _).
  split; [exact Hread|]. split; [vm_compute; reflexivity|].
  destruct (save_writes_the_records
              (CalculationHistory_.add_calculation (CalculationHistory_.__init__ 2) R1)
              no_files "history.csv") as (_ & _ & Hfloats & _); [discriminate|].
  apply Hfloats. by repeat constructor.
Defined.

Lemma save_load_keeps_reloadable_witness :
  let R1 := executed AddOperation 1 1 2 0 in
  let R2 := executed IntDivideOperation 7 2 3 1 in
  let R3 := executed DivideOperation 6 3 2 2 in
  let self := add_all (CalculationHistory_.__init__ 5) [R1; R2; R3] in
  let fs' := (CalculationHistory_.save_to_csv self no_files "history.csv").2 in
  _history (CalculationHistory_.load_from_csv self fs' "history.csv").2 = [R1; R3].
Proof.
  intros R1 R2 R3 self fs'.
  rewrite (save_load_keeps_reloadable self no_files fs' "history.csv").
  - vm_compute. reflexivity.
  - unfold within_max_size. vm_compute. discriminate.
  - repeat constructor; eexists; reflexivity.
  - vm_compute. reflexivity.
Defined.

Lemma create_operation_by_name_witness :
  OperationFactory.create_operation "Add" = Return AddOperation /\
  OperationFactory.create_operation "sqrt"
  = Raise (OperationError "Unknown operation: sqrt").
Proof.
  split.
  - apply (create_operation_by_name "Add" AddOperation). vm_compute. by left.
  - destruct (create_operation_by_name "sqrt" AddOperation) as (_ & Hunknown & _).
    apply Hunknown. vm_compute. intros Hin.
    repeat (apply elem_of_cons in Hin as [Heq|Hin]; [discriminate|]).
    by apply elem_of_nil in Hin.
Defined.

Lemma perform_calculation_records_result_witness :
  let start := Calculator_.__init__ default_config [] in
  let out := Calculator_.perform_calculation (rt := bare_runtime) start no_files
               "add" (ObjFloat (of_Z 5)) (ObjFloat (of_Z 3)) (Instant 0) in
  _history (history out.1.2) = [executed AddOperation 5 3 8 0].
Proof.
  intros start out.
  destruct (perform_calculation_records_result (rt := bare_runtime) start out.1.2
              no_files out.2 "add" (ObjFloat (of_Z 5)) (ObjFloat (of_Z 3)) (Instant 0)
              (of_Z 8))
    as (op & x & y & Hop & Hv & Hhistory & _); [vm_compute; reflexivity|].
  rewrite Hhistory. injection Hop as <-. injection Hv as <- <-.
  vm_compute. reflexivity.
Defined.

Lemma undo_then_redo_after_calculation_witness :
  let start := Calculator_.__init__ default_config [] in
  let out := Calculator_.perform_calculation (rt := bare_runtime) start no_files
               "add" (ObjFloat (of_Z 5)) (ObjFloat (of_Z 3)) (Instant 0) in
  _history (history (Calculator_.undo out.1.2).2) = [] /\
  _history (history (Calculator_.redo (Calculator_.undo out.1.2).2).2)
  = [executed AddOperation 5 3 8 0].
Proof.
  intros start out.
  destruct (undo_then_redo_after_calculation (rt := bare_runtime) start out.1.2
              no_files out.2 "add" (ObjFloat (of_Z 5)) (ObjFloat (of_Z 3)) (Instant 0)
              (of_Z 8))
    as (_ & Hundo & _ & Hredo); [vm_compute; reflexivity|].
  split; [exact Hundo|]. rewrite Hredo. vm_compute. reflexivity.
Defined.

Lemma undo_after_failed_calculation_witness :
  let start := Calculator_.__init__ default_config [] in
  let out := Calculator_.perform_calculation (rt := bare_runtime) start no_files
               "divide" (ObjFloat (of_Z 10)) (ObjFloat zero) (Instant 0) in
  (Calculator_.undo out.1.2).1 = Return tt /\
  history (Calculator_.undo out.1.2).2 = history start.
Proof.
  intros start out.
  destruct (undo_after_failed_calculation (rt := bare_runtime) start out.1.2
              no_files out.2 "divide" (ObjFloat (of_Z 10)) (ObjFloat zero)
              (of_Z 10) zero (Instant 0) (OperationError "Cannot divide by zero"))
    as (Hundo & Hhistory & _); [vm_compute; reflexivity | vm_compute; reflexivity |].
  by split.
Defined.

Lemma auto_save_after_calculation_witness :
  let start := Calculator_.__init__ default_config [] in
  let out := Calculator_.perform_calculation (rt := bare_runtime) start no_files
               "add" (ObjFloat (of_Z 5)) (ObjFloat (of_Z 3)) (Instant 0) in
  read_csv out.2 "history/calculation_history.csv"
  = inr [row_of_dict (Calculation_.to_dict (executed AddOperation 5 3 8 0))] /\
  length (logger out.1.2) = S (length (logger start)).
Proof.
  intros start out.
  pose proof (auto_save_after_calculation (rt := bare_runtime) start out.1.2
                no_files out.2 "add" "history/calculation_history.csv"
                (ObjFloat (of_Z 5)) (ObjFloat (of_Z 3)) (Instant 0) (of_Z 8)) as Hsave.
  destruct Hsave as [[message Hlog] [Hread _]];
    [reflexivity | vm_compute; discriminate | discriminate | vm_compute; reflexivity |].
  split; [rewrite Hread; vm_compute; reflexivity|].
  rewrite Hlog. unfold Logger_.info. rewrite length_app. apply Nat.add_1_r.
Defined.

Lemma session_within_max_size_witness :
  let typed := [(Line "add 2 3", Instant 0); (Line "undo", Instant 1);
                (Interrupt, Instant 2); (Line "  LOAD ", Instant 3);
                (Line "exit", Instant 4)] in
  calculator_within 100
    (calculator (Repl.main (rt := bare_runtime) (tx := ascii_text)
                   default_config [] no_files typed).2).
Proof.
  intros typed.
  apply (session_within_max_size (rt := bare_runtime) (tx := ascii_text)
           default_config [] no_files typed).
  vm_compute. discriminate.
Defined.

Lemma line_ignored_or_answered_witness :
  let s := {| calculator := Calculator_.__init__ default_config [];
              disk := no_files; screen := [] |} in
  Repl.repl_turn (rt := bare_runtime) (tx := ascii_text) s (Line "   ") (Instant 0)
  = (true, s) /\
  (0 < length (screen (Repl.repl_turn (rt := bare_runtime) (tx := ascii_text) s
                         (Line " Sqrt 2") (Instant 0)).2))%nat.
Proof.
  intros s. split.
  - destruct (line_ignored_or_answered (rt := bare_runtime) (tx := ascii_text) s "   "
                (Instant 0)) as [Hword Hturn]; [reflexivity|].
    rewrite Hword in Hturn. exact Hturn.
  - destruct (line_ignored_or_answered (rt := bare_runtime) (tx := ascii_text) s " Sqrt 2"
                (Instant 0)) as [Hword Hturn]; [reflexivity|].
    rewrite Hword in Hturn. exact Hturn.
Defined.

Lemma files_written_by_save_and_auto_save_only_witness :
  let s := {| calculator := Calculator_.__init__ default_config [];
              disk := no_files; screen := [] |} in
  read_csv (disk (Repl.repl_turn (rt := bare_runtime) (tx := ascii_text) s
                    (Line " Undo") (Instant 0)).2) "history/calculation_history.csv"
  = read_csv no_files "history/calculation_history.csv".
Proof.
  intros s.
  apply (files_written_by_save_and_auto_save_only (rt := bare_runtime) (tx := ascii_text)
           s " Undo" (Instant 0)).
  - vm_compute. discriminate.
  - right. intros command Hword. vm_compute in Hword. injection Hword as <-.
    vm_compute. intros Hin.
    repeat (apply elem_of_cons in Hin as [Heq|Hin]; [discriminate|]).
    by apply elem_of_nil in Hin.
  - discriminate.
Defined.
